(** * InsightFace-REST: request orchestration and response serialization

    A shallow embedding of [src/api_trt/modules/processing.py]:
    the [Serializer] class, [serialize_face], and the [Processing]
    methods [__init__], [embed_crops], [embed], [extract] and [draw].

    Python values that end up in a response are values of [pyval]; a
    [dict] is an association list in insertion order.  A Python float is
    a binary64 primitive float; a [numpy] scalar is the binary64 value it
    converts to, and arithmetic between [numpy] scalars rounds to their
    dtype.  A computation that may raise returns a [Result]; a method
    that also reads the clock, prints, or calls the face-analysis model
    is a function of a state that survives a raise.  The coroutines
    [embed], [extract] and [draw] are modelled as one sequential task: an
    [await] is a call.  The painting calls of [draw] are recorded with
    their arguments; what they do to the pixels belongs to OpenCV. *)

From Stdlib Require Import ZArith List String Bool Lia.
From Stdlib Require Import Floats.PrimFloat Floats.SpecFloat Floats.FloatOps.
From Stdlib Require Import Floats.FloatAxioms.
Import ListNotations.
Open Scope string_scope.
Open Scope list_scope.

Set Implicit Arguments.
Set Warnings "-register-all,-inexact-float".

(* ================================================================== *)
(** ** Exceptions and results *)

(** The subclasses of Python's [Exception] that the modelled code can
    meet.  [RuntimeError] stands for whatever the face-analysis model
    raises.  Every [except Exception] clause of the source catches all
    of them; what is not an [Exception] (an interrupt, the cancellation
    of the task) is outside the model. *)
Inductive Exn : Type :=
| StopIteration
| AttributeError (msg : string)
| TypeError (msg : string)
| KeyError (key : string)
| IndexError (msg : string)
| ValueError (msg : string)
| OverflowError (msg : string)
| Cv2Error (msg : string)
| RuntimeError (msg : string).

Inductive Result (A : Type) : Type :=
| Ok (a : A)
| Raise (e : Exn).

Arguments Ok {A} a.
Arguments Raise {A} e.

Definition rbind {A B : Type} (r : Result A) (k : A -> Result B) : Result B :=
  match r with
  | Ok a => k a
  | Raise e => Raise e
  end.

Notation "'let?' x ':=' r 'in' k" := (rbind r (fun x => k))
  (at level 10, x name, r at level 100, k at level 200).

Definition is_ok {A : Type} (r : Result A) : bool :=
  match r with Ok _ => true | Raise _ => false end.

(* ================================================================== *)
(** ** Python values *)

Inductive pyval : Type :=
| VNone
| VBool (b : bool)
| VInt (z : Z)
| VFloat (f : float)
| VStr (s : string)
| VList (l : list pyval)
| VDict (d : list (string * pyval)).

Definition Dict : Type := list (string * pyval).

(** [d.get(k)]: the value stored under [k], if any. *)
Fixpoint dict_get (k : string) (d : Dict) : option pyval :=
  match d with
  | [] => None
  | (k', v) :: rest => if String.eqb k k' then Some v else dict_get k rest
  end.

(** [d[k] = v]: an existing key keeps its position, a new key goes last. *)
Fixpoint dict_set (k : string) (v : pyval) (d : Dict) : Dict :=
  match d with
  | [] => [(k, v)]
  | (k', v') :: rest =>
      if String.eqb k k' then (k', v) :: rest else (k', v') :: dict_set k v rest
  end.

(** [d.update(k1=v1, ..., kn=vn)]. *)
Definition dict_update (kvs : Dict) (d : Dict) : Dict :=
  fold_left (fun acc kv => dict_set (fst kv) (snd kv) acc) kvs d.

(** [v.get(k, default)] on an arbitrary value: only a dict has [get]. *)
Definition py_get (v : pyval) (k : string) (default : pyval) : Result pyval :=
  match v with
  | VDict d =>
      match dict_get k d with
      | Some x => Ok x
      | None => Ok default
      end
  | _ => Raise (AttributeError "object has no attribute 'get'")
  end.

(** [for x in v]: the items a [for] clause iterates over. *)
Definition py_iter (v : pyval) : Result (list pyval) :=
  match v with
  | VList l => Ok l
  | VDict d => Ok (map (fun kv => VStr (fst kv)) d)
  | VStr s => Ok (map (fun c => VStr (String c EmptyString)) (list_ascii_of_string s))
  | _ => Raise (TypeError "object is not iterable")
  end.

(** [d[k].append(v)]. *)
Definition dict_append (k : string) (v : pyval) (d : Dict) : Result Dict :=
  match dict_get k d with
  | Some (VList l) => Ok (dict_set k (VList (l ++ [v])) d)
  | Some _ => Raise (AttributeError "object has no attribute 'append'")
  | None => Raise (KeyError k)
  end.

(** [d[k1][k2] = v]. *)
Definition dict_set_in (k1 k2 : string) (v : pyval) (d : Dict) : Result Dict :=
  match dict_get k1 d with
  | Some (VDict inner) => Ok (dict_set k1 (VDict (dict_set k2 v inner)) d)
  | Some _ => Raise (TypeError "object does not support item assignment")
  | None => Raise (KeyError k1)
  end.

(* ================================================================== *)
(** ** Numbers *)

(** [bool(x)] of an optional scalar: [None] and zero (of either sign)
    are false, everything else, NaN included, is true. *)
Definition truthy (x : option float) : bool :=
  match x with
  | None => false
  | Some f => negb (PrimFloat.eqb f 0%float)
  end.

(** [int(x)]: truncation toward zero; NaN and the infinities raise. *)
Definition py_int (x : float) : Result Z :=
  match Prim2SF x with
  | S754_zero _ => Ok 0%Z
  | S754_finite s m e =>
      let q := Z.shiftl (Zpos m) e in
      Ok (if s then Z.opp q else q)
  | S754_infinity _ => Raise (OverflowError "cannot convert float infinity to integer")
  | S754_nan => Raise (ValueError "cannot convert float NaN to integer")
  end.

Definition INT64_MIN : Z := (- 2 ^ 63)%Z.

(** One element of [a.astype(int)]: the C cast to a 64-bit integer.  It
    truncates toward zero and never raises; what is not representable
    (NaN, infinities, out of range) becomes the smallest 64-bit integer,
    as on x86-64. *)
Definition astype_int (x : float) : Z :=
  match py_int x with
  | Ok z => if ((INT64_MIN <=? z) && (z <? 2 ^ 63))%Z then z else INT64_MIN
  | Raise _ => INT64_MIN
  end.

(* ================================================================== *)
(** ** Arrays of floats

    A [numpy] array of a floating dtype, as [np.array(data, dtype)]: its
    items are the numbers of [data] rounded to the dtype.  An item, like
    every [numpy] scalar, is represented by the binary64 value it
    converts to, which is exact for the three dtypes. *)

Inductive Dtype : Type :=
| Float16
| Float32
| Float64.

(** Precision and exponent bound of the IEEE 754 format of a dtype. *)
Definition dtype_prec (dt : Dtype) : Z :=
  match dt with
  | Float16 => 11%Z
  | Float32 => 24%Z
  | Float64 => 53%Z
  end.

Definition dtype_emax (dt : Dtype) : Z :=
  match dt with
  | Float16 => 16%Z
  | Float32 => 128%Z
  | Float64 => 1024%Z
  end.

(** The conversion of a number to a dtype: rounding to the nearest
    value of the format, ties to even, and to an infinity beyond its
    range. *)
Definition cast (dt : Dtype) (x : float) : float :=
  match Prim2SF x with
  | S754_finite s m e => SF2Prim (binary_round (dtype_prec dt) (dtype_emax dt) s m e)
  | _ => x
  end.

(** [x - y] between two scalars of dtype [dt]: the difference is rounded
    to [dt]; it overflows to an infinity and does not raise. *)
Definition np_sub (dt : Dtype) (x y : float) : float :=
  SF2Prim (SFsub (dtype_prec dt) (dtype_emax dt) (Prim2SF x) (Prim2SF y)).

Record ndarray : Type := np_array {
  dtype : Dtype;
  data : list float
}.

(** The items of an array, read wherever the array stands for a list. *)
Definition items (a : ndarray) : list float :=
  map (cast (dtype a)) (data a).

Coercion items : ndarray >-> list.

(* ================================================================== *)
(** ** Images and faces *)

(** A decoded image or a face crop: a [numpy] array of bytes. *)
Record Image : Type := mkImage {
  shape : list nat;
  pixels : list Byte.byte
}.

(** Modelled from the spec: the [Face] tuple of [face_model.py], which is
    not part of the sources at hand.  Every attribute is optional (the
    source builds [Face(facedata=...)] and reads all the others);
    [num_det], [gender] and [age] go to the response verbatim.  The box
    is an array with its dtype, as the source subtracts two of its
    items; the landmarks and the embeddings are only converted
    ([astype(int)], [tolist()], [float()]), which does not depend on
    their dtype, so they are given by their items. *)
Record Face : Type := mkFace {
  bbox : option ndarray;
  landmark : option (list (list float));
  det_score : option float;
  embedding : option (list float);
  gender : pyval;
  age : pyval;
  embedding_norm : option float;
  normed_embedding : option (list float);
  facedata : option Image;
  scale : option float;
  num_det : pyval;
  mask_prob : option float
}.

(** [Face(facedata=d)]: every other attribute defaults to [None]. *)
Definition Face_of_facedata (d : option Image) : Face :=
  mkFace None None None None VNone VNone None None d None VNone None.

(** Modelled from the spec: an item of the list returned by
    [get_images]; it carries decoded data or a load-failure trace. *)
Record ImageInput : Type := mkImageInput {
  img_data : option Image;
  img_traceback : option string
}.

(** Attribute access on an optional array: [None.attr] raises. *)
Definition attr_of {A : Type} (x : option A) (attr : string) : Result A :=
  match x with
  | Some a => Ok a
  | None => Raise (AttributeError ("'NoneType' object has no attribute '" ++ attr ++ "'"))
  end.

(** [a[i]] on a one-dimensional array. *)
Definition getitem (a : list float) (i : nat) : Result float :=
  match nth_error a i with
  | Some x => Ok x
  | None => Raise (IndexError "index out of bounds")
  end.

(** [float(x)]. *)
Definition py_float (x : option float) : Result float :=
  match x with
  | Some f => Ok f
  | None => Raise (TypeError "float() argument must be a string or a number, not 'NoneType'")
  end.

Definition tolist_float (a : list float) : pyval := VList (map VFloat a).
Definition tolist_int (a : list float) : pyval := VList (map (fun x => VInt (astype_int x)) a).
Definition tolist_int2 (a : list (list float)) : pyval := VList (map tolist_int a).

(** [base64.b64encode(cv2.imencode('.jpg', img)[1].tostring()).decode('utf-8')]:
    the JPEG codec and the base64 alphabet belong to external libraries
    and are taken as parameters. *)
Class Codec : Type := mkCodec {
  imencode_jpg : option Image -> Result (list Byte.byte);
  b64encode : list Byte.byte -> string
}.

(* ================================================================== *)
(** ** [serialize_face] *)

Section FaceRecordBuilder.
Context {codec : Codec}.

Definition serialize_face (face : Face) (return_face_data : bool)
    (return_landmarks : bool) : Result Dict :=
  let _face_dict : Dict :=
    [ ("det", num_det face);
      ("prob", VNone);
      ("bbox", VNone);
      ("size", VNone);
      ("landmarks", VNone);
      ("gender", gender face);
      ("age", age face);
      ("mask_prob", VNone);
      ("norm", VNone);
      ("vec", VNone) ] in
  let? _face_dict :=
    (if truthy (embedding_norm face) then
       let? ne := attr_of (normed_embedding face) "tolist" in
       let? norm := py_float (embedding_norm face) in
       Ok (dict_update [("vec", tolist_float ne); ("norm", VFloat norm)] _face_dict)
     else Ok _face_dict) in
  let? _face_dict :=
    (if truthy (det_score face) then
       let? prob := py_float (det_score face) in
       let? b := attr_of (bbox face) "astype" in
       let? b2 := getitem b 2 in
       let? b0 := getitem b 0 in
       let? size := py_int (np_sub (dtype b) b2 b0) in
       let _face_dict :=
         dict_update [("prob", VFloat prob); ("bbox", tolist_int b); ("size", VInt size)]
                     _face_dict in
       if return_landmarks then
         let? lm := attr_of (landmark face) "astype" in
         Ok (dict_update [("landmarks", tolist_int2 lm)] _face_dict)
       else Ok _face_dict
     else Ok _face_dict) in
  let? _face_dict :=
    (if truthy (mask_prob face) then
       let? mp := py_float (mask_prob face) in
       Ok (dict_update [("mask_prob", VFloat mp)] _face_dict)
     else Ok _face_dict) in
  if return_face_data then
    let? buf := imencode_jpg (facedata face) in
    Ok (dict_update [("facedata", VStr (b64encode buf))] _face_dict)
  else Ok _face_dict.

End FaceRecordBuilder.

(* ================================================================== *)
(** ** [Serializer] *)

Module Serializer.

Definition _serializer_v1 (data : pyval) : Result pyval :=
  let? data := py_get data "data" (VList []) in
  let? items := py_iter data in
  let? resp :=
    fold_right (fun img acc =>
                  let? faces := py_get img "faces" VNone in
                  let? rest := acc in
                  Ok (faces :: rest))
               (Ok []) items in
  Ok (VList resp).

Definition _serializer_v2 (data : pyval) : Result pyval :=
  Ok data.

Definition get_serializer (api_ver : string) : pyval -> Result pyval :=
  if String.eqb api_ver "1" then _serializer_v1 else _serializer_v2.

Definition serialize (data : pyval) (api_ver : string) : Result pyval :=
  let serializer := get_serializer api_ver in
  serializer data.

End Serializer.

(* ================================================================== *)
(** ** State and exceptions *)

(** A computation over a state [St] that returns or raises; the state
    reached is kept in both cases, as assignments and calls made before
    a [raise] are not undone. *)
Definition M (St A : Type) : Type := St -> Result A * St.

Definition ret {St A : Type} (a : A) : M St A := fun s => (Ok a, s).

Definition bind {St A B : Type} (m : M St A) (k : A -> M St B) : M St B :=
  fun s =>
    match m s with
    | (Ok a, s') => k a s'
    | (Raise e, s') => (Raise e, s')
    end.

Declare Scope py_scope.
Delimit Scope py_scope with py.
Notation "x <- m ;; k" := (bind m (fun x => k))
  (at level 61, m at next level, right associativity) : py_scope.
Notation "m ;; k" := (bind m (fun _ => k))
  (at level 61, right associativity) : py_scope.
Open Scope py_scope.

(** [try: body / except Exception as e: handler e]. *)
Definition try_except {St A : Type} (body : M St A) (handler : Exn -> M St A) : M St A :=
  fun s =>
    match body s with
    | (Ok a, s') => (Ok a, s')
    | (Raise e, s') => handler e s'
    end.

(** A pure step that may raise. *)
Definition lift {St A : Type} (r : Result A) : M St A := fun s => (r, s).

(** [for x in xs: body x]. *)
Fixpoint for_each {St A : Type} (xs : list A) (body : A -> M St unit) : M St unit :=
  match xs with
  | [] => ret tt
  | x :: rest => body x ;; for_each rest body
  end.

(* ================================================================== *)
(** ** External collaborators *)

(** The keyword arguments of [FaceAnalysis.get]. *)
Record GetOpts : Type := mkGetOpts {
  o_max_size : option (list Z);
  o_threshold : float;
  o_return_face_data : bool;
  o_extract_embedding : bool;
  o_extract_ga : bool;
  o_limit_faces : Z
}.

(** The request body handed to [get_images]. *)
Record ImagesRequest : Type := mkImagesRequest {
  urls : option (list string);
  data_b64 : option (list string)
}.

(** What [processing.py] calls and does not define.  [World] is
    everything outside the interpreter frame: the clock, standard
    output, the log, the network and the model's own state.

    Modelled from the spec: [get_images] (module [image_provider]) keeps
    the order of the descriptors and captures a load failure inside the
    item; [model_get] ([FaceAnalysis.get]) returns the detected faces or
    raises; [process_faces] returns a lazy sequence, so the call itself
    does nothing and each [next] runs the model, which returns a face,
    raises, or raises [StopIteration] when exhausted. *)
Class External : Type := mkExternal {
  World : Type;
  time_time : World -> float * World;
  print : string -> World -> World;
  logging_debug_reading : float -> World -> World;
  format_exc : Exn -> string;
  get_images : ImagesRequest -> World -> list ImageInput * World;
  model_get : option Image -> GetOpts -> World -> Result (list Face) * World;
  Generator : Type;
  process_faces : list Face -> bool -> bool -> bool -> Generator;
  next : Generator -> World -> Result Face * Generator * World;
  ext_codec :: Codec
}.

(* ================================================================== *)
(** ** [Processing] *)

(** The attribute of a [Processing] instance that the modelled methods
    read; [self.model] is the [External] instance. *)
Record Processing : Type := mkProcessing {
  self_max_size : list Z
}.

Section Methods.
Context {ext : External}.

(** *** Access to the world and to the locals of a frame *)

Definition in_world {L A : Type} (f : World -> A * World) : M (L * World) A :=
  fun s => (Ok (fst (f (snd s))), (fst s, snd (f (snd s)))).

Definition call_world {L A : Type} (f : World -> Result A * World) : M (L * World) A :=
  fun s => (fst (f (snd s)), (fst s, snd (f (snd s)))).

Definition effect {L : Type} (f : World -> World) : M (L * World) unit :=
  fun s => (Ok tt, (fst s, f (snd s))).

Definition get_locals {L : Type} : M (L * World) L :=
  fun s => (Ok (fst s), s).

Definition set_locals {L : Type} (l : L) : M (L * World) unit :=
  fun s => (Ok tt, (l, snd s)).

(** Runs a method body in a fresh frame. *)
Definition in_frame {L A : Type} (init : L) (m : M (L * World) A) : M World A :=
  fun w => (fst (m (init, w)), snd (snd (m (init, w)))).

(** *** [Processing.embed] *)

(** [d[k] = v] and [d[k].append(v)] on the dict a frame holds. *)
Definition local_set (k : string) (v : pyval) : M (Dict * World) unit :=
  d <- get_locals ;;
  set_locals (dict_set k v d).

Definition local_append (k : string) (v : pyval) : M (Dict * World) unit :=
  d <- get_locals ;;
  d' <- lift (dict_append k v d) ;;
  set_locals d'.

(** The body of the [try] statement of [embed], for one image; the
    frame holds [_faces_dict]. *)
Definition embed_try (image_data : ImageInput) (max_size : option (list Z))
    (threshold : float) (limit_faces : Z)
    (return_face_data extract_embedding extract_ga return_landmarks : bool)
    : M (Dict * World) unit :=
  t1 <- in_world time_time ;;
  match img_traceback image_data with
  | Some tb =>
      local_set "status" (VStr "failed") ;;
      local_set "traceback" (VStr tb)
  | None =>
      let image := img_data image_data in
      faces <- call_world
                 (model_get image
                    (mkGetOpts max_size threshold return_face_data
                               extract_embedding extract_ga limit_faces)) ;;
      for_each faces (fun face =>
        _face_dict <- lift (serialize_face face return_face_data return_landmarks) ;;
        local_append "faces" (VDict _face_dict)) ;;
      t2 <- in_world time_time ;;
      let took_image := (t2 - t1)%float in
      local_set "took_ms" (VFloat (took_image * 1000)%float) ;;
      local_set "status" (VStr "ok")
  end.

(** The [except Exception] clause of [embed]. *)
Definition embed_except (e : Exn) : M (Dict * World) unit :=
  let tb := format_exc e in
  effect (print tb) ;;
  local_set "status" (VStr "failed") ;;
  local_set "traceback" (VStr tb).

(** One image of [embed]: a fresh [_faces_dict], the [try] statement,
    and the dict as the body or the handler left it. *)
Definition embed_image (image_data : ImageInput) (max_size : option (list Z))
    (threshold : float) (limit_faces : Z)
    (return_face_data extract_embedding extract_ga return_landmarks : bool)
    : M World Dict :=
  in_frame [("status", VStr ""); ("took_ms", VFloat 0%float); ("faces", VList [])]
    (try_except
       (embed_try image_data max_size threshold limit_faces return_face_data
                  extract_embedding extract_ga return_landmarks)
       embed_except ;;
     get_locals).

(** The frame of [embed] holds [output]. *)
Definition embed (images : list ImageInput) (max_size : option (list Z))
    (threshold : float) (limit_faces : Z)
    (return_face_data extract_embedding extract_ga return_landmarks : bool)
    : M World Dict :=
  in_frame [("took", VDict []); ("data", VList [])]
    (for_each images (fun image_data =>
       _faces_dict <- call_world
                        (embed_image image_data max_size threshold limit_faces
                           return_face_data extract_embedding extract_ga
                           return_landmarks) ;;
       local_append "data" (VDict _faces_dict)) ;;
     get_locals).

(** *** [Processing.embed_crops] *)

(** The local variables of [embed_crops] that change while the loop
    runs: the response under construction and the lazy sequence of
    analyzed faces. *)
Record CropsLocals : Type := mkCropsLocals {
  c_output : Dict;
  c_faces : Generator
}.

(** [__iterate_faces]: the crops handed to the model, one per image
    that carries no load failure.  The source yields them lazily; they
    depend on [crops] only, which the loop does not change. *)
Fixpoint iterate_faces (crops : list ImageInput) : list Face :=
  match crops with
  | [] => []
  | face :: rest =>
      match img_traceback face with
      | None => Face_of_facedata (img_data face) :: iterate_faces rest
      | Some _ => iterate_faces rest
      end
  end.

(** [next(faces)]. *)
Definition next_faces : M (CropsLocals * World) Face :=
  fun s =>
    let r := next (c_faces (fst s)) (snd s) in
    (fst (fst r), (mkCropsLocals (c_output (fst s)) (snd (fst r)), snd r)).

(** [output[k] = v]. *)
Definition output_set (k : string) (v : pyval) : M (CropsLocals * World) unit :=
  l <- get_locals ;;
  set_locals (mkCropsLocals (dict_set k v (c_output l)) (c_faces l)).

(** [output[k].append(v)]. *)
Definition output_append (k : string) (v : pyval) : M (CropsLocals * World) unit :=
  l <- get_locals ;;
  d <- lift (dict_append k v (c_output l)) ;;
  set_locals (mkCropsLocals d (c_faces l)).

(** One iteration of the loop of [embed_crops]. *)
Definition crops_iteration (image : ImageInput) : M (CropsLocals * World) unit :=
  _face_dict <-
    match img_traceback image with
    | Some tb => ret [("status", VStr "failed"); ("traceback", VStr tb)]
    | None =>
        face <- next_faces ;;
        lift (serialize_face face false false)
    end ;;
  output_append "data" (VDict _face_dict).

(** The [except Exception] clause of [embed_crops]. *)
Definition crops_except (e : Exn) : M (CropsLocals * World) unit :=
  let tb := format_exc e in
  effect (print tb) ;;
  output_set "status" (VStr "failed") ;;
  output_set "traceback" (VStr tb).

Definition embed_crops (images : list ImageInput)
    (extract_embedding extract_ga : bool) : M World Dict :=
  let iterator := iterate_faces images in
  let faces := process_faces iterator extract_embedding extract_ga false in
  in_frame
    (mkCropsLocals [("took_ms", VNone); ("data", VList []); ("status", VStr "ok")] faces)
    (t0 <- in_world time_time ;;
     try_except (for_each images crops_iteration) crops_except ;;
     t <- in_world time_time ;;
     let took := (t - t0)%float in
     output_set "took_ms" (VFloat (took * 1000)%float) ;;
     l <- get_locals ;;
     ret (c_output l)).

(** *** [Processing.extract] *)

(** [not max_size]: true for [None] and for the empty list. *)
Definition not_max_size (max_size : option (list Z)) : bool :=
  match max_size with
  | None | Some [] => true
  | Some (_ :: _) => false
  end.

Definition extract (self : Processing) (images : ImagesRequest)
    (max_size : option (list Z)) (threshold : float) (limit_faces : Z)
    (embed_only return_face_data extract_embedding extract_ga
     return_landmarks verbose_timings : bool) (api_ver : string)
    : M World pyval :=
  let max_size := if not_max_size max_size then Some (self_max_size self) else max_size in
  in_frame tt
    (t0 <- in_world time_time ;;
     tl0 <- in_world time_time ;;
     images <- in_world (get_images images) ;;
     tl1 <- in_world time_time ;;
     let took_loading := (tl1 - tl0)%float in
     effect (logging_debug_reading (took_loading * 1000)%float) ;;
     if embed_only then
       _faces_dict <- call_world (embed_crops images extract_embedding extract_ga) ;;
       ret (VDict _faces_dict)
     else
       te0 <- in_world time_time ;;
       output <- call_world
                   (embed images max_size threshold limit_faces return_face_data
                          extract_embedding extract_ga return_landmarks) ;;
       te1 <- in_world time_time ;;
       let took_embed := (te1 - te0)%float in
       t1 <- in_world time_time ;;
       let took := (t1 - t0)%float in
       output <- lift (dict_set_in "took" "total_ms" (VFloat (took * 1000)%float) output) ;;
       output <-
         (if verbose_timings then
            output <- lift (dict_set_in "took" "read_imgs_ms"
                              (VFloat (took_loading * 1000)%float) output) ;;
            lift (dict_set_in "took" "embed_all_ms"
                    (VFloat (took_embed * 1000)%float) output)
          else ret output) ;;
       lift (Serializer.serialize (VDict output) api_ver)).

End Methods.

(* ================================================================== *)
(** ** Vocabulary of the statements *)

(** The four fields that [serialize_face] fills from a detection. *)
Definition detection_fields_null (d : Dict) : Prop :=
  dict_get "prob" d = Some VNone /\
  dict_get "bbox" d = Some VNone /\
  dict_get "size" d = Some VNone /\
  dict_get "landmarks" d = Some VNone.

(** The embedding stage of [serialize_face] does not raise. *)
Definition embedding_ready (face : Face) : bool :=
  if truthy (embedding_norm face)
  then match normed_embedding face with Some _ => true | None => false end
  else true.

(** The face-data stage of [serialize_face] does not raise. *)
Definition facedata_ready {codec : Codec} (face : Face) (return_face_data : bool) : bool :=
  if return_face_data then is_ok (imencode_jpg (facedata face)) else true.

(** A PerImageResult: a dict with a [faces] entry. *)
Definition is_per_image_result (v : pyval) : bool :=
  match v with
  | VDict d => match dict_get "faces" d with Some _ => true | None => false end
  | _ => false
  end.

(** A BatchResult: a dict whose [data] entry is a list of PerImageResults. *)
Definition is_batch_result (v : pyval) : bool :=
  match v with
  | VDict d =>
      match dict_get "data" d with
      | Some (VList items) => forallb is_per_image_result items
      | _ => false
      end
  | _ => false
  end.

(** [batch.data] and [pi.faces], as the specification writes them. *)
Definition batch_data (batch : pyval) : list pyval :=
  match batch with
  | VDict d => match dict_get "data" d with Some (VList items) => items | _ => [] end
  | _ => []
  end.

Definition pi_faces (pi : pyval) : pyval :=
  match pi with
  | VDict d => match dict_get "faces" d with Some faces => faces | None => VNone end
  | _ => VNone
  end.

(** The envelope [embed] returns around the per-image results. *)
Definition batch_of (items : list pyval) : Dict :=
  [("took", VDict []); ("data", VList items)].

(** The [_faces_dict] of an image under construction. *)
Definition per_image (status : string) (took_ms : float) (faces : list pyval) : Dict :=
  [("status", VStr status); ("took_ms", VFloat took_ms); ("faces", VList faces)].

(** The per-image result of an image that failed to load. *)
Definition load_failure (tb : string) : Dict :=
  [("status", VStr "failed"); ("took_ms", VFloat 0%float); ("faces", VList []);
   ("traceback", VStr tb)].

(** The [output] of [embed_crops] while its loop runs. *)
Definition crops_output (items : list pyval) : Dict :=
  [("took_ms", VNone); ("data", VList items); ("status", VStr "ok")].

(** [status] is one of the two tags. *)
Definition status_tagged (d : Dict) : Prop :=
  dict_get "status" d = Some (VStr "ok") \/ dict_get "status" d = Some (VStr "failed").

(** An entry of the flat list of [embed_crops]: a dict that is not a
    PerImageResult, with no [faces] sublist. *)
Definition flat_entry (v : pyval) : Prop :=
  exists d, v = VDict d /\ dict_get "faces" d = None.

Section BatchVocabulary.
Context {ext : External}.
Variables (max_size : option (list Z)) (threshold : float) (limit_faces : Z)
          (return_face_data extract_embedding extract_ga return_landmarks : bool).

(** [aligned images w items w']: [items] holds, image by image and in
    order, the dict [embed_image] returns for it, each image being
    processed in the world the one before it left; [w'] is the world
    after the last one. *)
Inductive aligned : list ImageInput -> World -> list pyval -> World -> Prop :=
| aligned_nil (w : World) : aligned [] w [] w
| aligned_cons (image_data : ImageInput) (rest : list ImageInput)
    (w w1 w2 : World) (r : Dict) (rs : list pyval) :
    embed_image image_data max_size threshold limit_faces return_face_data
                extract_embedding extract_ga return_landmarks w = (Ok r, w1) ->
    aligned rest w1 rs w2 ->
    aligned (image_data :: rest) w (VDict r :: rs) w2.

(** In world [w], the work on a loaded image raises [e]: the model call
    raises it, or the model returns faces and [serialize_face] raises it
    on the first face it cannot serialize. *)
Inductive processing_raises (image_data : ImageInput) (w : World) (e : Exn) : Prop :=
| raises_in_model_call :
    img_traceback image_data = None ->
    fst (model_get (img_data image_data)
           (mkGetOpts max_size threshold return_face_data extract_embedding
                      extract_ga limit_faces)
           (snd (time_time w))) = Raise e ->
    processing_raises image_data w e
| raises_in_record_building (faces built rest : list Face) (face : Face) :
    img_traceback image_data = None ->
    fst (model_get (img_data image_data)
           (mkGetOpts max_size threshold return_face_data extract_embedding
                      extract_ga limit_faces)
           (snd (time_time w))) = Ok faces ->
    faces = built ++ face :: rest ->
    Forall (fun f => is_ok (serialize_face f return_face_data return_landmarks) = true)
           built ->
    serialize_face face return_face_data return_landmarks = Raise e ->
    processing_raises image_data w e.

End BatchVocabulary.

(* ================================================================== *)
(** ** A concrete set of collaborators

    A small deterministic stand-in for the clock, the loader, the codec
    and the model, on which the methods can be run. *)

Module Sample.

Record SWorld : Type := mkSWorld {
  clock : float;
  stdout : list string;
  debug_log : list float;
  model_calls : nat
}.

Definition s_time (w : SWorld) : float * SWorld :=
  (clock w, mkSWorld (clock w + 1)%float (stdout w) (debug_log w) (model_calls w)).

Definition s_print (line : string) (w : SWorld) : SWorld :=
  mkSWorld (clock w) (stdout w ++ [line]) (debug_log w) (model_calls w).

Definition s_debug (ms : float) (w : SWorld) : SWorld :=
  mkSWorld (clock w) (stdout w) (debug_log w ++ [ms]) (model_calls w).

Definition s_called (w : SWorld) : SWorld :=
  mkSWorld (clock w) (stdout w) (debug_log w) (S (model_calls w)).

Definition exn_name (e : Exn) : string :=
  match e with
  | StopIteration => "StopIteration"
  | AttributeError m => "AttributeError: " ++ m
  | TypeError m => "TypeError: " ++ m
  | KeyError k => "KeyError: " ++ k
  | IndexError m => "IndexError: " ++ m
  | ValueError m => "ValueError: " ++ m
  | OverflowError m => "OverflowError: " ++ m
  | Cv2Error m => "cv2.error: " ++ m
  | RuntimeError m => "RuntimeError: " ++ m
  end.

Definition s_format_exc (e : Exn) : string :=
  "Traceback (most recent call last): " ++ exn_name e.

(** An image with pixels, an image the model chokes on, and items as
    the loader returns them. *)
Definition good_image : Image := mkImage [1; 1; 3]%nat [Byte.x10; Byte.x20; Byte.x30].
Definition bad_image : Image := mkImage [0; 0; 3]%nat [].

Definition loaded (i : Image) : ImageInput := mkImageInput (Some i) None.
Definition not_loaded (tb : string) : ImageInput := mkImageInput None (Some tb).

(** The face of scenario A: score 0.95, box [10, 10, 50, 60], in single
    precision as a detector gives it. *)
Definition detected_face : Face :=
  mkFace (Some (np_array Float32 [10; 10; 50; 60]%float))
         (Some [[20; 25]; [40; 25]; [30; 35]; [22; 45]; [38; 45]]%float)
         (Some 0.95%float) None (VInt 1) (VInt 30) None None None None (VInt 0) None.

(** The model finds one face in an image that has pixels and raises
    on one that has none. *)
Definition s_model_get (image : option Image) (o : GetOpts) (w : SWorld)
    : Result (list Face) * SWorld :=
  match image with
  | Some (mkImage _ (_ :: _)) => (Ok [detected_face], s_called w)
  | _ => (Raise (RuntimeError "cannot process image"), s_called w)
  end.

(** The lazy sequence of analyzed crops: the crops not yet analyzed. *)
Definition s_process_faces (crops : list Face) (extract_embedding extract_ga : bool)
    (return_face_data : bool) : list Face := crops.

Definition s_next (g : list Face) (w : SWorld) : Result Face * list Face * SWorld :=
  match g with
  | [] => (Raise StopIteration, [], w)
  | crop :: rest =>
      match facedata crop with
      | Some (mkImage _ (_ :: _)) =>
          (Ok (mkFace None None None (Some [3; 4]%float) (VInt 0) (VInt 41)
                      (Some 5%float) (Some [0.6; 0.8]%float)
                      (facedata crop) None VNone None),
           rest, s_called w)
      | _ => (Raise (RuntimeError "cannot process crop"), rest, s_called w)
      end
  end.

Definition s_get_images (r : ImagesRequest) (w : SWorld) : list ImageInput * SWorld :=
  (match data_b64 r with
   | Some items =>
       map (fun b => if String.eqb b "" then not_loaded "Traceback: cannot decode"
                     else loaded good_image) items
   | None => []
   end, w).

Definition s_imencode (i : option Image) : Result (list Byte.byte) :=
  match i with
  | Some img => Ok (pixels img)
  | None => Raise (Cv2Error "imencode: empty image")
  end.

#[export] Instance codec : Codec := mkCodec s_imencode string_of_list_byte.

#[export] Instance ext : External :=
  @mkExternal SWorld s_time s_print s_debug s_format_exc s_get_images
              s_model_get (list Face) s_process_faces s_next codec.

Definition w0 : SWorld := mkSWorld 100%float [] [] 0.

(** A detection whose score, embedding norm and mask probability are
    all zero, with a box, landmarks and an embedding. *)
Definition zero_face : Face :=
  mkFace (Some (np_array Float32 [10; 10; 50; 60]%float))
         (Some [[20; 25]; [40; 25]; [30; 35]; [22; 45]; [38; 45]]%float)
         (Some 0%float) (Some [0; 0]%float) (VInt 1) (VInt 30)
         (Some 0%float) (Some [0; 0]%float) None None (VInt 0) (Some 0%float).

(** A detection whose box has fractional corners: width 40.7. *)
Definition fractional_face : Face :=
  mkFace (Some (np_array Float32 [10.5; 10; 51.2; 60]%float)) None (Some 0.95%float) None
         VNone VNone None None None None (VInt 0) None.

(** A detection whose box has the corners 0.1 and 40.1 as single
    precision holds them, kept in an array of dtype [dt]. *)
Definition offset_face (dt : Dtype) : Face :=
  mkFace (Some (np_array dt [0.10000000149011612; 0; 40.099998474121094; 0]%float))
         None (Some 0.95%float) None VNone VNone None None None None (VInt 0) None.

(** An analyzed crop: no detection, an embedding of norm 5. *)
Definition crop_face : Face :=
  mkFace None None None (Some [3; 4]%float) (VInt 0) (VInt 41)
         (Some 5%float) (Some [0.6; 0.8]%float) (Some good_image) None VNone None.

(** A BatchResult as [embed] builds it for one loaded image and one
    image that failed to load. *)
Definition sample_batch : pyval :=
  VDict [("took", VDict [("total_ms", VFloat 7000)]);
         ("data",
          VList [VDict [("status", VStr "ok"); ("took_ms", VFloat 1000);
                        ("faces", VList [VDict [("det", VInt 0); ("size", VInt 40)]])];
                 VDict [("status", VStr "failed"); ("took_ms", VFloat 0);
                        ("faces", VList []); ("traceback", VStr "boom")]])].

End Sample.

(* ================================================================== *)
(** ** Further vocabulary *)

(** A value that has a [get] method. *)
Definition is_dict (v : pyval) : bool :=
  match v with
  | VDict _ => true
  | _ => false
  end.

(** The keys [serialize_face] creates, in the order of its [dict(...)]. *)
Definition record_keys : list string :=
  ["det"; "prob"; "bbox"; "size"; "landmarks"; "gender"; "age"; "mask_prob";
   "norm"; "vec"].

(** The detection stage of [serialize_face] does not raise: with a score
    that tests true, the box exists and has a third element, its width
    converts to an integer, and landmarks exist when they are asked for. *)
Definition detection_ready (face : Face) (return_landmarks : bool) : bool :=
  if truthy (det_score face) then
    match bbox face with
    | Some b =>
        match nth_error b 2, nth_error b 0 with
        | Some x2, Some x0 =>
            is_ok (py_int (np_sub (dtype b) x2 x0))
            && (if return_landmarks
                then match landmark face with Some _ => true | None => false end
                else true)
        | _, _ => false
        end
    | None => false
    end
  else true.

(** ** [Processing.__init__] *)


(** The entry [embed_crops] appends for an image that failed to load. *)
Definition crop_failure (tb : string) : Dict :=
  [("status", VStr "failed"); ("traceback", VStr tb)].

(** The [data] list of [embed_crops] when every analyzed face was
    obtained and serialized: image by image, the failure entry of an
    image that failed to load, or the next record. *)
Fixpoint crops_entries (images : list ImageInput) (records : list Dict) : list pyval :=
  match images with
  | [] => []
  | image :: rest =>
      match img_traceback image with
      | Some tb => VDict (crop_failure tb) :: crops_entries rest records
      | None =>
          match records with
          | r :: records' => VDict r :: crops_entries rest records'
          | [] => []
          end
      end
  end.

(** An image that carries no load failure. *)
Definition is_loaded (image : ImageInput) : bool :=
  match img_traceback image with
  | None => true
  | Some _ => false
  end.

(** A result that reports a failure: the status "failed" and the trace
    [tb]; and a result that reports none. *)
Definition failed_with (tb : string) (d : Dict) : Prop :=
  dict_get "status" d = Some (VStr "failed") /\
  dict_get "traceback" d = Some (VStr tb).

Definition ok_without_trace (d : Dict) : Prop :=
  dict_get "status" d = Some (VStr "ok") /\
  dict_get "traceback" d = None.

Section MoreVocabulary.
Context {ext : External}.

(** [yields g w faces g' w']: from world [w], successive calls of [next]
    on [g] return [faces], one after the other, and leave the sequence
    as [g'] and the world as [w']. *)
Inductive yields : Generator -> World -> list Face -> Generator -> World -> Prop :=
| yields_nil (g : Generator) (w : World) : yields g w [] g w
| yields_cons (g g1 g2 : Generator) (w w1 w2 : World) (f : Face) (fs : list Face) :
    next g w = (Ok f, g1, w1) ->
    yields g1 w1 fs g2 w2 ->
    yields g w (f :: fs) g2 w2.

(** The world after [n] readings of the clock and nothing else. *)
Fixpoint clock_reads (n : nat) (w : World) : World :=
  match n with
  | O => w
  | S n' => clock_reads n' (snd (time_time w))
  end.

(** [crops_raises images g w e]: walking [images] as the loop of
    [embed_crops] does, from the lazy sequence [g] and the world [w],
    the first step that raises, raises [e]: [next(faces)] for a loaded
    image, or [serialize_face] on the face it returned.  An image that
    failed to load takes no step. *)
Inductive crops_raises : list ImageInput -> Generator -> World -> Exn -> Prop :=
| raises_in_next (image : ImageInput) (rest : list ImageInput)
    (g g' : Generator) (w w' : World) (e : Exn) :
    img_traceback image = None ->
    next g w = (Raise e, g', w') ->
    crops_raises (image :: rest) g w e
| raises_in_serialize_face (image : ImageInput) (rest : list ImageInput)
    (g g' : Generator) (w w' : World) (face : Face) (e : Exn) :
    img_traceback image = None ->
    next g w = (Ok face, g', w') ->
    serialize_face face false false = Raise e ->
    crops_raises (image :: rest) g w e
| raises_after_load_failure (image : ImageInput) (rest : list ImageInput)
    (g : Generator) (w : World) (tb : string) (e : Exn) :
    img_traceback image = Some tb ->
    crops_raises rest g w e ->
    crops_raises (image :: rest) g w e
| raises_after_record (image : ImageInput) (rest : list ImageInput)
    (g g' : Generator) (w w' : World) (face : Face) (d : Dict) (e : Exn) :
    img_traceback image = None ->
    next g w = (Ok face, g', w') ->
    serialize_face face false false = Ok d ->
    crops_raises rest g' w' e ->
    crops_raises (image :: rest) g w e.

End MoreVocabulary.

(** ** A second model

    The collaborators of [Sample] with a model that finds two faces in
    every image: an analyzed crop, which carries face data, and the
    detected face of scenario A, which carries none. *)

Module SampleTwoFaces.

Definition model_get (image : option Image) (o : GetOpts) (w : Sample.SWorld)
    : Result (list Face) * Sample.SWorld :=
  (Ok [Sample.crop_face; Sample.detected_face], Sample.s_called w).

Definition ext : External :=
  @mkExternal Sample.SWorld Sample.s_time Sample.s_print Sample.s_debug
              Sample.s_format_exc Sample.s_get_images model_get (list Face)
              Sample.s_process_faces Sample.s_next Sample.codec.

End SampleTwoFaces.

(** ** A third model

    The collaborators of [Sample] with a model that finds no face,
    whatever it is given. *)

Module SampleNoFaces.

Definition model_get (image : option Image) (o : GetOpts) (w : Sample.SWorld)
    : Result (list Face) * Sample.SWorld :=
  (Ok [], Sample.s_called w).

Definition ext : External :=
  @mkExternal Sample.SWorld Sample.s_time Sample.s_print Sample.s_debug
              Sample.s_format_exc Sample.s_get_images model_get (list Face)
              Sample.s_process_faces Sample.s_next Sample.codec.

End SampleNoFaces.

(* ================================================================== *)
(** ** [Processing.draw] *)

From Stdlib Require DecimalString.

(** A colour as OpenCV takes it: blue, green, red. *)
Definition Color : Type := (Z * Z * Z)%type.

(** The painting calls of [draw], with their arguments in the order of
    the source: [cv2.rectangle(image, pt1, pt2, color, thickness)],
    [cv2.rectangle(image, rec, color, thickness, lineType)],
    [cv2.circle(image, center, radius, color, thickness)] and
    [cv2.putText(image, text, org, fontFace, fontScale, color,
    thickness, lineType)]. *)
Inductive DrawCmd : Type :=
| CvRectangle (pt1 pt2 : Z * Z) (color : Color) (thickness : Z)
| CvRectangleRec (rec : Z * Z * Z * Z) (color : Color) (thickness lineType : Z)
| CvCircle (center : Z * Z) (radius : Z) (color : Color) (thickness : Z)
| CvPutText (text : string) (org : Z * Z) (fontFace : Z) (fontScale : float)
    (color : Color) (thickness lineType : Z).

(** What [draw] calls besides the collaborators of [External]: the
    painting calls of OpenCV, which change the image they are given or
    raise; the format [f"{x:.3f}"] of a score; and
    [cv2.imdecode(np.fromstring(buf, np.uint8), cv2.IMREAD_COLOR)],
    which gives [None] for bytes that are no image. *)
Class Painter : Type := mkPainter {
  paint : DrawCmd -> option Image -> Result (option Image);
  format_3f : float -> string;
  imdecode : list Byte.byte -> Result (option Image)
}.

(** Arithmetic on [numpy] 64-bit integers wraps around. *)
Definition wrap64 (z : Z) : Z := ((z + 2 ^ 63) mod 2 ^ 64 - 2 ^ 63)%Z.

(** The conversion of an integer to a float, rounded to nearest. *)
Definition float_of_Z (z : Z) : float :=
  SF2Prim (binary_normalize prec emax z 0 false).

(** [str(z)] and [str(n)]. *)
Definition string_of_Z (z : Z) : string :=
  DecimalString.NilZero.string_of_int (Z.to_int z).

Definition string_of_nat (n : nat) : string :=
  DecimalString.NilZero.string_of_uint (Nat.to_uint n).

(** [a[i:j]] on a one-dimensional array. *)
Definition slice {A : Type} (a : list A) (i j : nat) : list A :=
  firstn (j - i) (skipn i a).

(** [x, y = t]. *)
Definition unpack2 (t : list Z) : Result (Z * Z) :=
  match t with
  | [a; b] => Ok (a, b)
  | [] | [_] => Raise (ValueError "not enough values to unpack (expected 2)")
  | _ => Raise (ValueError "too many values to unpack (expected 2)")
  end.

(** [a[i]] on a list. *)
Definition index {A : Type} (a : list A) (i : nat) : Result A :=
  match nth_error a i with
  | Some x => Ok x
  | None => Raise (IndexError "index out of range")
  end.

(** [f"{x:.3f}"] of an optional score: [None] has no such format. *)
Definition format_score {painter : Painter} (x : option float) : Result string :=
  match x with
  | Some f => Ok (format_3f f)
  | None => Raise (TypeError "unsupported format string passed to NoneType.__format__")
  end.

Definition GREEN : Color := (0, 255, 0)%Z.
Definition YELLOW : Color := (0, 255, 255)%Z.
Definition BLACK : Color := (0, 0, 0)%Z.

(** The first argument of [draw]: a request for [get_images], or the
    bytes of an encoded image when [multipart] is set. *)
Inductive DrawInput : Type :=
| FromRequest (images : ImagesRequest)
| FromMultipart (images : list Byte.byte).

Section Drawing.
Context {ext : External} {painter : Painter}.

(** A painting call on [image], the local the frame of [draw] holds. *)
Definition paint_cmd (c : DrawCmd) : M (option Image * World) unit :=
  image <- get_locals ;;
  image' <- lift (paint c image) ;;
  set_locals image'.

(** [cv2.circle(image, (lms[i][0], lms[i][1]), 1, color, pt_size)]. *)
Definition draw_landmark (lms : list (list Z)) (i : nat) (color : Color)
    (pt_size : Z) : M (option Image * World) unit :=
  row <- lift (index lms i) ;;
  cx <- lift (index row 0) ;;
  cy <- lift (index row 1) ;;
  paint_cmd (CvCircle (cx, cy) 1 color pt_size).

(** The body of the loop of [draw], for one face. *)
Definition draw_face (face : Face) (draw_landmarks draw_scores draw_sizes : bool)
    : M (option Image * World) unit :=
  b <- lift (attr_of (bbox face) "astype") ;;
  let bbox := map astype_int b in
  let pt1 := slice bbox 0 2 in
  let pt2 := slice bbox 2 4 in
  let color := GREEN in
  xy <- lift (unpack2 pt1) ;;
  rb <- lift (unpack2 pt2) ;;
  let x := fst xy in
  let y := snd xy in
  let r := fst rb in
  let b := snd rb in
  let w := wrap64 (r - x) in
  let color :=
    if truthy (mask_prob face) then
      match mask_prob face with
      | Some m => if (0.2 <=? m)%float then YELLOW else color
      | None => color
      end
    else color in
  paint_cmd (CvRectangle (x, y) (r, b) color 1) ;;
  (if draw_landmarks then
     lm <- lift (attr_of (landmark face) "astype") ;;
     let lms := map (map astype_int) lm in
     pt_size <- lift (py_int (float_of_Z w * 0.05)%float) ;;
     draw_landmark lms 0 (0, 0, 255)%Z pt_size ;;
     draw_landmark lms 1 (0, 255, 255)%Z pt_size ;;
     draw_landmark lms 2 (255, 0, 255)%Z pt_size ;;
     draw_landmark lms 3 (0, 255, 0)%Z pt_size ;;
     draw_landmark lms 4 (255, 0, 0)%Z pt_size
   else ret tt) ;;
  (if draw_scores then
     text <- lift (format_score (det_score face)) ;;
     let pos := (wrap64 (x + 3), wrap64 (y - 5)) in
     let textcolor := BLACK in
     let thickness := 1%Z in
     let border := 0%Z in
     paint_cmd (CvRectangleRec (wrap64 (x - border), wrap64 (y - 21),
                               wrap64 (w + thickness), 21%Z) color (-1) 16) ;;
     paint_cmd (CvPutText text pos 0 0.5 (0, 255, 0)%Z 3 16) ;;
     paint_cmd (CvPutText text pos 0 0.5 textcolor 1 16)
   else ret tt) ;;
  (if draw_sizes then
     let text := ("w:" ++ string_of_Z w)%string in
     let pos := (wrap64 (x + 3), wrap64 (b - 5)) in
     paint_cmd (CvPutText text pos 0 0.5 (0, 0, 0)%Z 3 16) ;;
     paint_cmd (CvPutText text pos 0 0.5 (0, 255, 0)%Z 1 16)
   else ret tt).

(** [Processing.draw], with [self.det_name] as [det_name]; [multipart]
    is set when the input is [FromMultipart].  The frame holds [image];
    the value returned is the content of the buffer. *)
Definition draw (det_name : string) (images : DrawInput) (threshold : float)
    (draw_landmarks draw_scores draw_sizes : bool) (limit_faces : Z)
    : M World (list Byte.byte) :=
  in_frame None
    (match images with
     | FromRequest request =>
         images <- in_world (get_images request) ;;
         first <- lift (index images 0) ;;
         set_locals (img_data first)
     | FromMultipart buf =>
         image <- lift (imdecode buf) ;;
         set_locals image
     end ;;
     image <- get_locals ;;
     faces <- call_world
                (model_get image
                   (mkGetOpts None threshold false false false limit_faces)) ;;
     for_each faces (fun face =>
       draw_face face draw_landmarks draw_scores draw_sizes) ;;
     let total :=
       ("faces: " ++ string_of_nat (List.length faces) ++ " (" ++ det_name ++ ")")%string in
     image <- get_locals ;;
     img <- lift (attr_of image "shape") ;;
     height <- lift (index (shape img) 0) ;;
     let bottom := Z.of_nat height in
     paint_cmd (CvPutText total (5, bottom - 5)%Z 0 1 (0, 0, 0)%Z 3 16) ;;
     paint_cmd (CvPutText total (5, bottom - 5)%Z 0 1 (0, 255, 0)%Z 1 16) ;;
     image <- get_locals ;;
     lift (imencode_jpg image)).

(** The painting calls in a list, made one after the other. *)
Definition paint_all (cmds : list DrawCmd) : M (option Image * World) unit :=
  for_each cmds paint_cmd.

End Drawing.

(** *** Vocabulary for [draw] *)

(** Point [i] of an integer landmark array. *)
Definition lm_point (lms : list (list Z)) (i : nat) : Z * Z :=
  (nth 0 (nth i lms []) 0%Z, nth 1 (nth i lms []) 0%Z).

(** The array has the five rows [draw] reads, each with two columns. *)
Definition landmarks_complete (lms : list (list Z)) : bool :=
  forallb (fun i => match nth_error lms i with
                    | Some row => (2 <=? List.length row)%nat
                    | None => false
                    end)
          [0; 1; 2; 3; 4]%nat.

(** The colour of a face's box: yellow for a mask probability that tests
    true and is at least 0.2, green otherwise. *)
Definition box_color (face : Face) : Color :=
  match mask_prob face with
  | Some m => if truthy (Some m) && (0.2 <=? m)%float then YELLOW else GREEN
  | None => GREEN
  end.

Section DrawVocabulary.
Context {ext : External} {painter : Painter}.

(** What the first statements of [draw] leave in [image]. *)
Definition loaded_image (images : DrawInput) (w : World)
    : Result (option Image) * World :=
  match images with
  | FromRequest request =>
      (let? first := index (fst (get_images request w)) 0 in Ok (img_data first),
       snd (get_images request w))
  | FromMultipart buf => (imdecode buf, w)
  end.

(** [draw_face] can go through all its statements on this face: the box
    has four coordinates, and the landmarks and the score exist when
    they are to be drawn. *)
Definition face_drawable (face : Face) (draw_landmarks draw_scores : bool) : bool :=
  match bbox face with
  | Some b =>
      match map astype_int b with
      | x :: _ :: r :: _ :: _ =>
          (if draw_landmarks then
             match landmark face with
             | Some lm =>
                 is_ok (py_int (float_of_Z (wrap64 (r - x)) * 0.05)%float)
                 && landmarks_complete (map (map astype_int) lm)
             | None => false
             end
           else true)
          && (if draw_scores then
                match det_score face with Some _ => true | None => false end
              else true)
      | _ => false
      end
  | None => false
  end.

(** The painting calls [draw_face] makes for a drawable face, in order:
    the box, the five landmark points, the score label, the width
    label. *)
Definition face_cmds (face : Face) (draw_landmarks draw_scores draw_sizes : bool)
    : list DrawCmd :=
  match option_map (fun b : ndarray => map astype_int b) (bbox face) with
  | Some (x :: y :: r :: b :: _) =>
      let w := wrap64 (r - x) in
      let color := box_color face in
      [CvRectangle (x, y) (r, b) color 1]
      ++ (if draw_landmarks then
            let lms :=
              match landmark face with
              | Some lm => map (map astype_int) lm
              | None => []
              end in
            let pt_size :=
              match py_int (float_of_Z w * 0.05)%float with
              | Ok p => p
              | Raise _ => 0%Z
              end in
            [CvCircle (lm_point lms 0) 1 (0, 0, 255)%Z pt_size;
             CvCircle (lm_point lms 1) 1 (0, 255, 255)%Z pt_size;
             CvCircle (lm_point lms 2) 1 (255, 0, 255)%Z pt_size;
             CvCircle (lm_point lms 3) 1 (0, 255, 0)%Z pt_size;
             CvCircle (lm_point lms 4) 1 (255, 0, 0)%Z pt_size]
          else [])
      ++ (if draw_scores then
            let text :=
              match det_score face with
              | Some s => format_3f s
              | None => ""
              end in
            let pos := (wrap64 (x + 3), wrap64 (y - 5)) in
            [CvRectangleRec (wrap64 (x - 0), wrap64 (y - 21), wrap64 (w + 1), 21%Z)
                            color (-1) 16;
             CvPutText text pos 0 0.5 GREEN 3 16;
             CvPutText text pos 0 0.5 BLACK 1 16]
          else [])
      ++ (if draw_sizes then
            let text := ("w:" ++ string_of_Z w)%string in
            let pos := (wrap64 (x + 3), wrap64 (b - 5)) in
            [CvPutText text pos 0 0.5 BLACK 3 16;
             CvPutText text pos 0 0.5 GREEN 1 16]
          else [])
  | _ => []
  end.

(** The two summary lines [draw] paints last. *)
Definition summary_cmds (det_name : string) (n_faces : nat) (height : nat)
    : list DrawCmd :=
  let total :=
    ("faces: " ++ string_of_nat n_faces ++ " (" ++ det_name ++ ")")%string in
  [CvPutText total (5, Z.of_nat height - 5)%Z 0 1 BLACK 3 16;
   CvPutText total (5, Z.of_nat height - 5)%Z 0 1 GREEN 1 16].

End DrawVocabulary.

(** *** A painter to run [draw] with

    It keeps the shape of the image and appends one byte per painting
    call to its pixels, which tells the calls apart; it raises on a
    missing image.  Bytes decode to an image when they start with the
    JPEG marker. *)

Module SamplePainter.

Definition tag (c : DrawCmd) : Byte.byte :=
  match c with
  | CvRectangle _ _ _ _ => Byte.x01
  | CvRectangleRec _ _ _ _ => Byte.x02
  | CvCircle _ _ _ _ => Byte.x03
  | CvPutText _ _ _ _ _ _ _ => Byte.x04
  end.

Definition s_paint (c : DrawCmd) (image : option Image) : Result (option Image) :=
  match image with
  | Some img => Ok (Some (mkImage (shape img) (pixels img ++ [tag c])))
  | None => Raise (Cv2Error "img is not a numpy array")
  end.

Definition s_format_3f (x : float) : string :=
  if (x =? 0.95)%float then "0.950" else "?.???".

Definition s_imdecode (buf : list Byte.byte) : Result (option Image) :=
  match buf with
  | [] => Raise (Cv2Error "imdecode: empty buffer")
  | Byte.xff :: _ => Ok (Some (mkImage [2; 2; 3]%nat buf))
  | _ => Ok None
  end.

#[export] Instance painter : Painter := mkPainter s_paint s_format_3f s_imdecode.

End SamplePainter.

(* ================================================================== *)
(** * Properties *)

(** ** Dictionaries *)

Lemma dict_get_set_same (k : string) (v : pyval) (d : Dict) :
  dict_get k (dict_set k v d) = Some v.
Proof.
  induction d as [|[k' v'] rest IH]; cbn.
  - now rewrite String.eqb_refl.
  - destruct (String.eqb k k') eqn:E; cbn; rewrite E; auto.
Qed.

Lemma dict_get_set_other (k k' : string) (v : pyval) (d : Dict) :
  k <> k' -> dict_get k (dict_set k' v d) = dict_get k d.
Proof.
  intros Hne. induction d as [|[k0 v0] rest IH]; cbn.
  - destruct (String.eqb_spec k k'); congruence.
  - destruct (String.eqb_spec k' k0) as [->|Hk]; cbn.
    + destruct (String.eqb_spec k k0); congruence.
    + destruct (String.eqb_spec k k0); auto.
Qed.

Lemma dict_set_set (k : string) (v1 v2 : pyval) (d : Dict) :
  dict_set k v2 (dict_set k v1 d) = dict_set k v2 d.
Proof.
  induction d as [|[k' v'] rest IH]; cbn.
  - now rewrite String.eqb_refl.
  - destruct (String.eqb k k') eqn:E; cbn; rewrite E; congruence.
Qed.

(** ** [serialize_face] *)

Section FaceRecordFacts.
Context {codec : Codec}.

(** Follows a run of [serialize_face] that returned, in evaluation
    order: one test or one call that may raise at a time. *)
Ltac face_step :=
  match goal with
  | H : context [if truthy ?x then _ else _] |- _ => destruct (truthy x) eqn:?
  | H : context [if ?b then _ else _] |- _ => is_var b; destruct b
  | H : rbind ?r _ = Ok _ |- _ => destruct r eqn:?; cbn [rbind] in H; [|discriminate H]
  | H : Ok _ = Ok ?a |- _ => is_var a; inversion H; subst a; clear H
  | H : Raise _ = Ok _ |- _ => discriminate H
  end.

Ltac face_cases H :=
  unfold serialize_face in H; repeat face_step.

Lemma serialize_face_no_faces_key (face : Face) (rfd rl : bool) (d : Dict) :
  serialize_face face rfd rl = Ok d -> dict_get "faces" d = None.
Proof.
  intros H. face_cases H; reflexivity.
Qed.

(** C4. A face that carries no detection score is serialized with
    [prob], [bbox], [size] and [landmarks] all null, whatever the two
    flags and the other attributes are; and a record is produced
    exactly when the embedding and face-data stages do not raise. *)
Theorem serialize_face_without_score
    (face : Face) (return_face_data return_landmarks : bool) :
  det_score face = None ->
  is_ok (serialize_face face return_face_data return_landmarks)
    = embedding_ready face && facedata_ready face return_face_data
  /\ forall d, serialize_face face return_face_data return_landmarks = Ok d ->
               detection_fields_null d.
Proof.
  intros Hscore. split.
  - unfold serialize_face, embedding_ready, facedata_ready. rewrite Hscore.
    destruct (embedding_norm face) as [n|], (normed_embedding face),
      (mask_prob face) as [m|], return_face_data,
      (imencode_jpg (facedata face));
      cbn [truthy attr_of py_float rbind is_ok];
      repeat match goal with
             | |- context [negb ?b] => destruct (negb b)
             end;
      reflexivity.
  - intros d H. face_cases H; try (rewrite Hscore in *; discriminate);
      repeat split; reflexivity.
Qed.

Lemma truthy_zero (x : float) : (x =? 0)%float = true -> truthy (Some x) = false.
Proof. intros H. cbn. now rewrite H. Qed.

(** C9. The optional attributes are tested by truth value: a
    detection score equal to zero leaves [prob], [bbox], [size] and
    [landmarks] null, an embedding norm equal to zero leaves [vec] and
    [norm] null, and a mask probability equal to zero leaves
    [mask_prob] null, whatever else the face carries and whatever the
    flags are. *)
Theorem serialize_face_tests_truth_value
    (face : Face) (return_face_data return_landmarks : bool) (d : Dict) :
  serialize_face face return_face_data return_landmarks = Ok d ->
  (forall s, det_score face = Some s -> (s =? 0)%float = true ->
             detection_fields_null d) /\
  (forall n, embedding_norm face = Some n -> (n =? 0)%float = true ->
             dict_get "vec" d = Some VNone /\ dict_get "norm" d = Some VNone) /\
  (forall m, mask_prob face = Some m -> (m =? 0)%float = true ->
             dict_get "mask_prob" d = Some VNone).
Proof.
  intros H. split; [|split]; intros x Hx Hzero; apply truthy_zero in Hzero;
    rewrite <- Hx in Hzero;
    face_cases H; try congruence; repeat split; reflexivity.
Qed.

Lemma attr_of_ok {A : Type} (x : option A) (a : string) (v : A) :
  attr_of x a = Ok v -> x = Some v.
Proof. destruct x; cbn; congruence. Qed.

Lemma py_float_ok (x : option float) (v : float) :
  py_float x = Ok v -> x = Some v.
Proof. destruct x; cbn; congruence. Qed.

Lemma getitem_ok (a : list float) (i : nat) (v : float) :
  getitem a i = Ok v -> nth_error a i = Some v.
Proof. unfold getitem. destruct (nth_error a i); congruence. Qed.

(** In double precision the difference of two items is the one of
    Python floats. *)
Lemma np_sub_Float64 (x y : float) : np_sub Float64 x y = (x - y)%float.
Proof.
  unfold np_sub. cbn [dtype_prec dtype_emax].
  rewrite <- (SF2Prim_Prim2SF (x - y)), sub_spec. reflexivity.
Qed.

(** C7, as amended. For a face whose detection score is present and
    not zero, a record that [serialize_face] returns has [size] equal
    to [int(bbox[2] - bbox[0])]: the difference of the two items, taken
    in the dtype of the box (single precision for a single-precision
    box, the difference of Python floats for a double-precision one),
    converted by [int], which truncates toward zero; it stands next to
    the score and the integer box. *)
Theorem serialize_face_size
    (face : Face) (return_face_data return_landmarks : bool) (d : Dict) :
  truthy (det_score face) = true ->
  serialize_face face return_face_data return_landmarks = Ok d ->
  exists s b left right width,
    det_score face = Some s /\
    bbox face = Some b /\
    nth_error b 0 = Some left /\
    nth_error b 2 = Some right /\
    py_int (np_sub (dtype b) right left) = Ok width /\
    dict_get "size" d = Some (VInt width) /\
    dict_get "prob" d = Some (VFloat s) /\
    dict_get "bbox" d = Some (tolist_int b) /\
    (dtype b = Float64 -> py_int (right - left)%float = Ok width).
Proof.
  intros Hscore H. face_cases H; try congruence;
    repeat match goal with
           | E : attr_of _ _ = Ok _ |- _ => apply attr_of_ok in E
           | E : py_float _ = Ok _ |- _ => apply py_float_ok in E
           | E : getitem _ _ = Ok _ |- _ => apply getitem_ok in E
           end;
    do 5 eexists; repeat split; eauto;
    intros Hd; rewrite <- np_sub_Float64, <- Hd; assumption.
Qed.

End FaceRecordFacts.

(** ** [Serializer] *)

Section SerializerFacts.

(** The comprehension of [_serializer_v1] over PerImageResults. *)
Lemma v1_comprehension (items : list pyval) :
  forallb is_per_image_result items = true ->
  fold_right (fun img acc =>
                let? faces := py_get img "faces" VNone in
                let? rest := acc in
                Ok (faces :: rest))
             (Ok []) items
  = Ok (map pi_faces items).
Proof.
  induction items as [|pi rest IH]; cbn [forallb fold_right map]; [reflexivity|].
  intros H. apply andb_prop in H as [Hpi Hrest].
  rewrite (IH Hrest).
  destruct pi; try discriminate Hpi.
  cbn in Hpi |- *. destruct (dict_get "faces" d); [reflexivity | discriminate].
Qed.

(** C5. On a BatchResult, version "2" returns the batch itself and
    version "1" returns the list of the [faces] entries of
    [batch.data], one per image and in the same order. *)
Theorem serialize_round_trip (batch : pyval) :
  is_batch_result batch = true ->
  Serializer.serialize batch "2" = Ok batch /\
  (exists resp,
     Serializer.serialize batch "1" = Ok (VList resp) /\
     resp = map pi_faces (batch_data batch) /\
     List.length resp = List.length (batch_data batch) /\
     forall i pi, nth_error (batch_data batch) i = Some pi ->
                  nth_error resp i = Some (pi_faces pi)).
Proof.
  intros Hbatch. split; [reflexivity|].
  exists (map pi_faces (batch_data batch)). repeat split.
  - destruct batch; try discriminate Hbatch.
    unfold Serializer.serialize, Serializer.get_serializer,
      Serializer._serializer_v1, batch_data.
    cbn in Hbatch |- *.
    destruct (dict_get "data" d) as [[| | | | |items|]|]; try discriminate Hbatch.
    cbn. now rewrite (v1_comprehension items Hbatch).
  - apply length_map.
  - intros i pi Hi. now apply map_nth_error.
Qed.

(** C6. A version string other than "1" selects the serializer of
    version "2". *)
Theorem serialize_unknown_version (data : pyval) (api_ver : string) :
  api_ver <> "1" ->
  Serializer.serialize data api_ver = Serializer.serialize data "2".
Proof.
  intros Hne. unfold Serializer.serialize, Serializer.get_serializer.
  destruct (String.eqb_spec api_ver "1"); [contradiction | reflexivity].
Qed.

End SerializerFacts.

(** ** The monad *)

Lemma for_each_app {St A : Type} (xs ys : list A) (body : A -> M St unit) (s : St) :
  for_each (xs ++ ys) body s = (for_each xs body ;; for_each ys body) s.
Proof.
  revert s. induction xs as [|x xs IH]; intros s; cbn.
  - reflexivity.
  - unfold bind in *. destruct (body x s) as [[[]|e] s1]; [|reflexivity].
    apply IH.
Qed.

Section MonadFacts.
Context {ext : External}.

Lemma bind_run {St A B : Type} (m : M St A) (k : A -> M St B) (s s' : St)
    (r : Result A) :
  m s = (r, s') ->
  bind m k s = match r with Ok a => k a s' | Raise e => (Raise e, s') end.
Proof. intros H. unfold bind. rewrite H. destruct r; reflexivity. Qed.

Lemma bind_in_world {L A B : Type} (f : World -> A * World)
    (k : A -> M (L * World) B) (l : L) (w : World) :
  bind (in_world f) k (l, w) = k (fst (f w)) (l, snd (f w)).
Proof. reflexivity. Qed.

Lemma bind_call_world {L A B : Type} (f : World -> Result A * World)
    (k : A -> M (L * World) B) (l : L) (w : World) :
  bind (call_world f) k (l, w)
  = match fst (f w) with
    | Ok a => k a (l, snd (f w))
    | Raise e => (Raise e, (l, snd (f w)))
    end.
Proof. unfold bind, call_world. cbn. destruct (fst (f w)); reflexivity. Qed.

Lemma bind_effect {L B : Type} (f : World -> World)
    (k : unit -> M (L * World) B) (l : L) (w : World) :
  bind (effect f) k (l, w) = k tt (l, f w).
Proof. reflexivity. Qed.

Lemma bind_local_set {B : Type} (key : string) (v : pyval)
    (k : unit -> M (Dict * World) B) (d : Dict) (w : World) :
  bind (local_set key v) k (d, w) = k tt (dict_set key v d, w).
Proof. reflexivity. Qed.

Lemma local_set_run (key : string) (v : pyval) (d : Dict) (w : World) :
  local_set key v (d, w) = (Ok tt, (dict_set key v d, w)).
Proof. reflexivity. Qed.

Lemma try_except_run {St A : Type} (body : M St A) (handler : Exn -> M St A)
    (s s' : St) (r : Result A) :
  body s = (r, s') ->
  try_except body handler s
  = match r with Ok a => (Ok a, s') | Raise e => handler e s' end.
Proof. intros H. unfold try_except. rewrite H. destruct r; reflexivity. Qed.

Lemma in_frame_run {L A : Type} (init l : L) (m : M (L * World) A)
    (w w' : World) (r : Result A) :
  m (init, w) = (r, (l, w')) -> in_frame init m w = (r, w').
Proof. intros H. unfold in_frame. now rewrite H. Qed.

End MonadFacts.

Lemma firstn_prefix {A : Type} (a b : list A) (n : nat) :
  List.length a = n -> firstn n (a ++ b) = a.
Proof.
  intros <-. rewrite firstn_app, firstn_all, Nat.sub_diag. cbn. apply app_nil_r.
Qed.

(** ** [Processing.embed] *)

Section EmbedFacts.
Context {ext : External}.
Variables (max_size : option (list Z)) (threshold : float) (limit_faces : Z)
          (return_face_data extract_embedding extract_ga return_landmarks : bool).

Local Abbreviation embed_image' image_data :=
  (embed_image image_data max_size threshold limit_faces return_face_data
               extract_embedding extract_ga return_landmarks).
Local Abbreviation embed' images :=
  (embed images max_size threshold limit_faces return_face_data
         extract_embedding extract_ga return_landmarks).
Local Abbreviation aligned' :=
  (aligned max_size threshold limit_faces return_face_data
           extract_embedding extract_ga return_landmarks).
Local Abbreviation build_record :=
  (fun face =>
     _face_dict <- lift (serialize_face face return_face_data return_landmarks) ;;
     local_append "faces" (VDict _face_dict)).

(** The loop over the faces of one image appends records until
    [serialize_face] raises. *)
Lemma build_records_run (faces : list Face) (st : string) (t : float)
    (fs : list pyval) (w : World) :
  exists r new,
    for_each faces build_record (per_image st t fs, w)
    = (r, (per_image st t (fs ++ new), w)) /\
    (List.length new <= List.length faces)%nat.
Proof.
  revert fs. induction faces as [|face rest IH]; intros fs.
  - exists (Ok tt), []. rewrite app_nil_r. split; [reflexivity | cbn; lia].
  - cbn [for_each]. unfold bind at 1. unfold bind at 1.
    unfold lift at 1.
    destruct (serialize_face face return_face_data return_landmarks) as [d|e].
    + cbn. destruct (IH (fs ++ [VDict d])) as (r & new & Hrun & Hlen).
      exists r, (VDict d :: new). unfold per_image in *. rewrite Hrun.
      rewrite <- app_assoc. split; [reflexivity | cbn; lia].
    + exists (Raise e), []. rewrite app_nil_r. split; [reflexivity | cbn; lia].
Qed.

(** The handler of [embed], run on a dict of the shape [embed_try] leaves. *)
Lemma embed_except_run (e : Exn) (st : string) (t : float) (fs : list pyval) (w : World) :
  embed_except e (per_image st t fs, w)
  = (Ok tt, (per_image "failed" t fs ++ [("traceback", VStr (format_exc e))],
             print (format_exc e) w)).
Proof. reflexivity. Qed.

Lemma embed_image_load_failure (image_data : ImageInput) (tb : string) (w : World) :
  img_traceback image_data = Some tb ->
  embed_image' image_data w = (Ok (load_failure tb), snd (time_time w)).
Proof.
  intros Htb. unfold embed_image, embed_try. rewrite Htb.
  apply in_frame_run with (l := load_failure tb). reflexivity.
Qed.

(** The records of faces that serialize are all appended. *)
Lemma build_records_ok (faces : list Face) (st : string) (t : float)
    (fs : list pyval) (w : World) :
  Forall (fun f => is_ok (serialize_face f return_face_data return_landmarks) = true)
         faces ->
  exists new,
    for_each faces build_record (per_image st t fs, w)
    = (Ok tt, (per_image st t (fs ++ new), w)).
Proof.
  intros Hall. revert fs. induction Hall as [|face rest Hface _ IH]; intros fs.
  - exists []. now rewrite app_nil_r.
  - destruct (serialize_face face return_face_data return_landmarks) as [d|e] eqn:E;
      [|discriminate Hface].
    destruct (IH (fs ++ [VDict d])) as (new & Hrun).
    exists (VDict d :: new). cbn [for_each].
    erewrite bind_run.
    2:{ erewrite bind_run; [|unfold lift; rewrite E; reflexivity]. reflexivity. }
    rewrite <- app_assoc in Hrun. exact Hrun.
Qed.

(** What [embed_image] returns when the work on the image raises. *)
Lemma embed_image_raises (image_data : ImageInput) (w : World) (e : Exn) :
  processing_raises max_size threshold limit_faces return_face_data
                    extract_embedding extract_ga return_landmarks image_data w e ->
  exists fs w',
    embed_image' image_data w
    = (Ok (per_image "failed" 0 fs ++ [("traceback", VStr (format_exc e))]), w').
Proof.
  intros [Htb Hm | faces built rest face Htb Hm -> Hbuilt Hface].
  - eexists [], _. unfold embed_image, embed_try. rewrite Htb.
    eapply in_frame_run.
    erewrite bind_run.
    2:{ erewrite try_except_run.
        2:{ rewrite bind_in_world, bind_call_world, Hm. reflexivity. }
        apply (embed_except_run e "" 0 []). }
    reflexivity.
  - destruct (build_records_ok "" 0 [] (snd (model_get (img_data image_data)
           (mkGetOpts max_size threshold return_face_data extract_embedding
                      extract_ga limit_faces)
           (snd (time_time w)))) Hbuilt) as (new & Hrun).
    eexists new, _. unfold embed_image, embed_try. rewrite Htb.
    eapply in_frame_run.
    erewrite bind_run.
    2:{ erewrite try_except_run.
        2:{ rewrite bind_in_world, bind_call_world, Hm.
            erewrite bind_run.
            2:{ rewrite for_each_app. erewrite bind_run; [|exact Hrun].
                cbn [for_each]. erewrite bind_run.
                2:{ erewrite bind_run; [|unfold lift; rewrite Hface; reflexivity].
                    reflexivity. }
                reflexivity. }
            reflexivity. }
        apply (embed_except_run e "" 0 new). }
    reflexivity.
Qed.

(** [embed_image] always returns, and what it returns is a status-tagged
    PerImageResult. *)
Lemma embed_image_returns (image_data : ImageInput) (w : World) :
  exists st t fs tb w',
    embed_image' image_data w = (Ok (per_image st t fs ++ tb), w') /\
    (st = "ok" \/ st = "failed").
Proof.
  destruct (img_traceback image_data) as [tb|] eqn:Htb.
  - exists "failed", 0%float, [], [("traceback", VStr tb)], (snd (time_time w)).
    split; [|now right]. now apply embed_image_load_failure.
  - unfold embed_image, embed_try. rewrite Htb.
    set (w1 := snd (time_time w)).
    set (opts := mkGetOpts _ _ _ _ _ _).
    destruct (fst (model_get (img_data image_data) opts w1)) as [faces|e] eqn:Hm.
    + destruct (build_records_run faces "" 0 [] (snd (model_get (img_data image_data) opts w1)))
        as ([[]|e] & new & Hrun & _).
      * exists "ok". do 4 eexists. split; [|now left].
        eapply in_frame_run.
        erewrite bind_run.
        2:{ erewrite try_except_run.
            2:{ rewrite bind_in_world, bind_call_world. fold w1. rewrite Hm.
                erewrite bind_run; [|exact Hrun].
                rewrite bind_in_world, bind_local_set. apply local_set_run. }
            reflexivity. }
        reflexivity.
      * exists "failed". do 4 eexists. split; [|now right].
        eapply in_frame_run.
        erewrite bind_run.
        2:{ erewrite try_except_run.
            2:{ rewrite bind_in_world, bind_call_world. fold w1. rewrite Hm.
                erewrite bind_run; [|exact Hrun]. reflexivity. }
            apply (embed_except_run e "" 0 new). }
        reflexivity.
    + exists "failed". do 4 eexists. split; [|now right].
      eapply in_frame_run.
      erewrite bind_run.
      2:{ erewrite try_except_run.
          2:{ rewrite bind_in_world, bind_call_world. fold w1. rewrite Hm. reflexivity. }
          apply (embed_except_run e "" 0 []). }
      reflexivity.
Qed.

Lemma embed_loop (images : list ImageInput) (items0 : list pyval) (w : World) :
  exists new w',
    for_each images
      (fun image_data =>
         _faces_dict <- call_world (embed_image' image_data) ;;
         local_append "data" (VDict _faces_dict))
      (batch_of items0, w)
    = (Ok tt, (batch_of (items0 ++ new), w')) /\
    aligned' images w new w'.
Proof.
  revert items0 w. induction images as [|image_data rest IH]; intros items0 w.
  - exists [], w. rewrite app_nil_r. split; [reflexivity | constructor].
  - destruct (embed_image_returns image_data w) as (st & t & fs & tb & w1 & Himg & _).
    destruct (IH (items0 ++ [VDict (per_image st t fs ++ tb)]) w1)
      as (new & w' & Hrun & Hal).
    exists (VDict (per_image st t fs ++ tb) :: new), w'. split.
    + cbn [for_each]. erewrite bind_run.
      2:{ rewrite bind_call_world, Himg. reflexivity. }
      rewrite <- app_assoc in Hrun. exact Hrun.
    + econstructor; eassumption.
Qed.

Lemma embed_aligned (images : list ImageInput) (w : World) :
  exists items w',
    embed' images w = (Ok (batch_of items), w') /\ aligned' images w items w'.
Proof.
  destruct (embed_loop images [] w) as (items & w' & Hrun & Hal).
  exists items, w'. split; [|exact Hal].
  unfold embed. eapply in_frame_run. erewrite bind_run; [|exact Hrun]. reflexivity.
Qed.

Lemma aligned_functional (images : list ImageInput) (w w1 w2 : World)
    (a b : list pyval) :
  aligned' images w a w1 -> aligned' images w b w2 -> a = b /\ w1 = w2.
Proof.
  intros Ha. revert b w2. induction Ha as [w|img rest w wa wb r rs Himg _ IH];
    intros b w2 Hb; inversion Hb; subst.
  - auto.
  - match goal with
    | H : embed_image' img w = _ |- _ => rewrite Himg in H; injection H as <- <-
    end.
    destruct (IH _ _ ltac:(eassumption)) as [<- <-]. auto.
Qed.

Lemma aligned_embed (images : list ImageInput) (w w' : World) (items : list pyval) :
  aligned' images w items w' -> embed' images w = (Ok (batch_of items), w').
Proof.
  intros Hal. destruct (embed_aligned images w) as (items' & w'' & Hrun & Hal').
  destruct (aligned_functional Hal Hal') as [-> ->]. exact Hrun.
Qed.

Lemma aligned_length (images : list ImageInput) (w w' : World) (items : list pyval) :
  aligned' images w items w' -> List.length items = List.length images.
Proof. induction 1; cbn; congruence. Qed.

Lemma aligned_app (l1 l2 : list ImageInput) (w w1 w2 : World) (a b : list pyval) :
  aligned' l1 w a w1 -> aligned' l2 w1 b w2 -> aligned' (l1 ++ l2) w (a ++ b) w2.
Proof.
  induction 1; intros Hb; cbn; [exact Hb | econstructor; eauto].
Qed.

Lemma aligned_split (l1 l2 : list ImageInput) (w w2 : World) (items : list pyval) :
  aligned' (l1 ++ l2) w items w2 ->
  exists a b w1, items = a ++ b /\ aligned' l1 w a w1 /\ aligned' l2 w1 b w2.
Proof.
  revert w items. induction l1 as [|img l1 IH]; intros w items H; cbn in H.
  - exists [], items, w. repeat split; [constructor | exact H].
  - inversion H; subst.
    destruct (IH _ _ ltac:(eassumption)) as (a & b & wm & -> & Ha & Hb).
    exists (VDict r :: a), b, wm. repeat split; [econstructor; eauto | exact Hb].
Qed.

(** C1. [embed] returns one result per image, and the result at index
    [i] is the one [embed_image] returns for image [i], processed in the
    world the first [i] images left; for an image that failed to load it
    is the failure record that carries the load trace. *)
Theorem embed_positionally_aligned (images : list ImageInput) (w : World) :
  exists items w',
    embed' images w = (Ok (batch_of items), w') /\
    List.length items = List.length images /\
    forall i image_data,
      nth_error images i = Some image_data ->
      exists w_i r w_i',
        embed' (firstn i images) w = (Ok (batch_of (firstn i items)), w_i) /\
        embed_image' image_data w_i = (Ok r, w_i') /\
        nth_error items i = Some (VDict r) /\
        (forall tb, img_traceback image_data = Some tb -> r = load_failure tb).
Proof.
  destruct (embed_aligned images w) as (items & w' & Hrun & Hal).
  exists items, w'. split; [exact Hrun|]. split; [exact (aligned_length Hal)|].
  intros i image_data Hi.
  destruct (nth_error_split _ _ Hi) as (l1 & l2 & -> & Hlen).
  destruct (aligned_split _ _ Hal) as (a & b & w_i & -> & Ha & Hb).
  inversion Hb; subst.
  pose proof (aligned_length Ha) as Hla.
  exists w_i, r, w1.
  rewrite (firstn_prefix l1), (firstn_prefix a) by congruence.
  repeat split.
  - now apply aligned_embed.
  - assumption.
  - rewrite nth_error_app2, <- Hla, Nat.sub_diag by lia. reflexivity.
  - intros tb Htb.
    match goal with
    | H : embed_image' image_data w_i = _ |- _ =>
        rewrite (embed_image_load_failure _ _ Htb) in H; now injection H as <- _
    end.
Qed.

(** C2. When the work on one image raises, during the model call or
    while a face record is built, that image's result has status
    "failed" and carries the diagnostic trace of the exception; the
    images before it and after it are processed as [embed] processes
    them on their own, and their results surround the failed one in the
    output. *)
Theorem embed_isolates_failure
    (before after : list ImageInput) (image_data : ImageInput)
    (w w1 : World) (items_before : list pyval) (e : Exn) :
  embed' before w = (Ok (batch_of items_before), w1) ->
  processing_raises max_size threshold limit_faces return_face_data
                    extract_embedding extract_ga return_landmarks image_data w1 e ->
  exists r w2 items_after w3,
    embed_image' image_data w1 = (Ok r, w2) /\
    dict_get "status" r = Some (VStr "failed") /\
    dict_get "traceback" r = Some (VStr (format_exc e)) /\
    embed' after w2 = (Ok (batch_of items_after), w3) /\
    embed' (before ++ image_data :: after) w
    = (Ok (batch_of (items_before ++ VDict r :: items_after)), w3).
Proof.
  intros Hbefore Hraises.
  destruct (embed_image_raises Hraises) as (fs & w2 & Himg).
  destruct (embed_aligned after w2) as (items_after & w3 & Hafter & Hal_after).
  destruct (embed_aligned before w) as (items' & w1' & Hrun & Hal_before).
  rewrite Hbefore in Hrun. injection Hrun as <- <-.
  eexists _, w2, items_after, w3. split; [exact Himg|].
  split; [reflexivity|]. split; [reflexivity|]. split; [exact Hafter|].
  apply aligned_embed. eapply aligned_app; [exact Hal_before|].
  econstructor; eassumption.
Qed.

End EmbedFacts.

(** ** [Processing.embed_crops] *)

Section CropsFacts.
Context {ext : External}.

(** One iteration of the loop of [embed_crops], case by case. *)
Lemma crops_iteration_run (image : ImageInput) (items : list pyval)
    (g : Generator) (w : World) :
  crops_iteration image (mkCropsLocals (crops_output items) g, w)
  = match img_traceback image with
    | Some tb =>
        (Ok tt,
         (mkCropsLocals
            (crops_output
               (items ++ [VDict [("status", VStr "failed"); ("traceback", VStr tb)]]))
            g, w))
    | None =>
        match next g w with
        | (Ok face, g', w') =>
            match serialize_face face false false with
            | Ok d => (Ok tt, (mkCropsLocals (crops_output (items ++ [VDict d])) g', w'))
            | Raise e => (Raise e, (mkCropsLocals (crops_output items) g', w'))
            end
        | (Raise e, g', w') => (Raise e, (mkCropsLocals (crops_output items) g', w'))
        end
    end.
Proof.
  unfold crops_iteration. destruct (img_traceback image) as [tb|]; [reflexivity|].
  unfold bind at 1. unfold bind at 1. unfold next_faces. cbn [fst snd c_faces c_output].
  destruct (next g w) as [[[face|e] g'] w']; cbn [fst snd]; [|reflexivity].
  unfold lift. destruct (serialize_face face false false); reflexivity.
Qed.

(** The loop of [embed_crops] appends flat entries, one per image, until
    an iteration raises. *)
Lemma crops_loop_run (images : list ImageInput) (items : list pyval)
    (g : Generator) (w : World) :
  exists r new g' w',
    for_each images crops_iteration (mkCropsLocals (crops_output items) g, w)
    = (r, (mkCropsLocals (crops_output (items ++ new)) g', w')) /\
    Forall flat_entry new /\
    (List.length new <= List.length images)%nat /\
    (r = Ok tt -> List.length new = List.length images).
Proof.
  revert items g w. induction images as [|image rest IH]; intros items g w.
  - exists (Ok tt), [], g, w. rewrite app_nil_r. repeat split; auto.
  - cbn [for_each]. unfold bind at 1. rewrite crops_iteration_run.
    destruct (img_traceback image) as [tb|].
    + destruct (IH (items ++ [VDict [("status", VStr "failed"); ("traceback", VStr tb)]]) g w)
        as (r & new & g' & w' & Hrun & Hflat & Hle & Hlen).
      eexists r, (_ :: new), g', w'. rewrite Hrun, <- app_assoc.
      repeat split.
      * constructor; [|exact Hflat]. eexists. split; reflexivity.
      * cbn. lia.
      * intros Hr. cbn. rewrite (Hlen Hr). reflexivity.
    + destruct (next g w) as [[[face|e] g1] w1].
      * destruct (serialize_face face false false) as [d|e] eqn:Hface.
        -- destruct (IH (items ++ [VDict d]) g1 w1)
             as (r & new & g' & w' & Hrun & Hflat & Hle & Hlen).
           eexists r, (_ :: new), g', w'. rewrite Hrun, <- app_assoc.
           repeat split.
           ++ constructor; [|exact Hflat]. exists d. split; [reflexivity|].
              eapply serialize_face_no_faces_key; exact Hface.
           ++ cbn. lia.
           ++ intros Hr. cbn. rewrite (Hlen Hr). reflexivity.
        -- exists (Raise e), [], g1, w1. rewrite app_nil_r.
           repeat split; [constructor | cbn; lia | discriminate].
      * exists (Raise e), [], g1, w1. rewrite app_nil_r.
        repeat split; [constructor | cbn; lia | discriminate].
Qed.

(** [embed_crops] always returns: an envelope with a top-level [status]
    and [took_ms], no [took] breakdown, and a flat [data] list. *)
Lemma embed_crops_returns (images : list ImageInput)
    (extract_embedding extract_ga : bool) (w : World) :
  exists out w',
    embed_crops images extract_embedding extract_ga w = (Ok out, w') /\
    status_tagged out /\
    dict_get "took" out = None /\
    (exists t, dict_get "took_ms" out = Some (VFloat t)) /\
    (exists items, dict_get "data" out = Some (VList items) /\
                   Forall flat_entry items /\
                   (List.length items <= List.length images)%nat).
Proof.
  set (g := process_faces (iterate_faces images) extract_embedding extract_ga false).
  destruct (crops_loop_run images [] g (snd (time_time w)))
    as (r & new & g' & w1 & Hrun & Hflat & Hle & _).
  destruct r as [[]|e].
  - eexists _, _. split.
    + unfold embed_crops. fold g. eapply in_frame_run.
      rewrite bind_in_world. erewrite bind_run.
      2:{ erewrite try_except_run; [|exact Hrun]. reflexivity. }
      reflexivity.
    + split; [now left|]. split; [reflexivity|]. split; [eexists; reflexivity|].
      exists new. auto.
  - eexists _, _. split.
    + unfold embed_crops. fold g. eapply in_frame_run.
      rewrite bind_in_world. erewrite bind_run.
      2:{ erewrite try_except_run; [|exact Hrun]. reflexivity. }
      reflexivity.
    + split; [now right|]. split; [reflexivity|]. split; [eexists; reflexivity|].
      exists new. auto.
Qed.

(** C8. In [embed_crops], when the images before [image] went through
    and the next analyzed face cannot be obtained or cannot be
    serialized, the loop stops there: the response has the top-level
    status "failed" and the trace of the exception, [data] keeps only
    the entries of the images before, and the world is the one the
    failing step left, after the trace was printed and the clock read:
    no later image reaches the model. *)
Theorem embed_crops_aborts_on_failure
    (before after : list ImageInput) (image : ImageInput)
    (extract_embedding extract_ga : bool) (w w1 w2 : World)
    (l1 : CropsLocals) (g2 : Generator) (e : Exn) :
  for_each before crops_iteration
    (mkCropsLocals (crops_output [])
       (process_faces (iterate_faces (before ++ image :: after))
                      extract_embedding extract_ga false),
     snd (time_time w))
  = (Ok tt, (l1, w1)) ->
  img_traceback image = None ->
  (next (c_faces l1) w1 = (Raise e, g2, w2) \/
   exists face, next (c_faces l1) w1 = (Ok face, g2, w2) /\
                serialize_face face false false = Raise e) ->
  exists out items,
    embed_crops (before ++ image :: after) extract_embedding extract_ga w
    = (Ok out, snd (time_time (print (format_exc e) w2))) /\
    dict_get "status" out = Some (VStr "failed") /\
    dict_get "traceback" out = Some (VStr (format_exc e)) /\
    dict_get "data" out = Some (VList items) /\
    dict_get "data" (c_output l1) = Some (VList items) /\
    List.length items = List.length before.
Proof.
  set (g := process_faces _ _ _ _). intros Hbefore Htb Hnext.
  destruct (crops_loop_run before [] g (snd (time_time w)))
    as (r & new & g' & w' & Hrun & _ & _ & Hlen).
  rewrite Hbefore in Hrun. injection Hrun as <- -> <-. cbn [c_faces] in Hnext.
  assert (Hstep : crops_iteration image (mkCropsLocals (crops_output new) g', w1)
                  = (Raise e, (mkCropsLocals (crops_output new) g2, w2))).
  { rewrite crops_iteration_run, Htb.
    destruct Hnext as [-> | (face & -> & ->)]; reflexivity. }
  eexists _, new. split.
  - unfold embed_crops. fold g. eapply in_frame_run.
    rewrite bind_in_world. erewrite bind_run.
    2:{ erewrite try_except_run.
        2:{ rewrite for_each_app. erewrite bind_run; [|exact Hbefore].
            cbn [for_each]. erewrite bind_run; [|exact Hstep]. reflexivity. }
        reflexivity. }
    reflexivity.
  - repeat split; try reflexivity. now apply Hlen.
Qed.

End CropsFacts.

(** ** [Processing.extract] *)

Section ExtractFacts.
Context {ext : External}.

(** The results [embed] collects are status-tagged PerImageResults. *)
Lemma aligned_per_image (max_size : option (list Z)) (threshold : float)
    (limit_faces : Z)
    (return_face_data extract_embedding extract_ga return_landmarks : bool)
    (images : list ImageInput) (w w' : World) (items : list pyval) :
  aligned max_size threshold limit_faces return_face_data extract_embedding
          extract_ga return_landmarks images w items w' ->
  forallb is_per_image_result items = true /\
  Forall (fun v => exists d, v = VDict d /\ status_tagged d) items.
Proof.
  induction 1 as [w|img rest w w1 w2 r rs Himg _ [IHa IHb]].
  - split; [reflexivity | constructor].
  - destruct (embed_image_returns max_size threshold limit_faces return_face_data
                extract_embedding extract_ga return_landmarks img w)
      as (st & t & fs & tb & w1' & Hret & Hst).
    rewrite Himg in Hret. injection Hret as -> _.
    split.
    + cbn [forallb]. rewrite IHa. reflexivity.
    + constructor; [|exact IHb]. eexists. split; [reflexivity|].
      destruct Hst as [-> | ->]; [left | right]; reflexivity.
Qed.

(** Version "1" and version "2" both serialize what [embed] returns,
    whatever timings were written under [took]. *)
Lemma serialize_batch_returns (took : Dict) (items : list pyval) (api_ver : string) :
  forallb is_per_image_result items = true ->
  exists resp,
    Serializer.serialize (VDict [("took", VDict took); ("data", VList items)]) api_ver
    = Ok resp.
Proof.
  intros Hitems. unfold Serializer.serialize, Serializer.get_serializer.
  destruct (String.eqb api_ver "1").
  - unfold Serializer._serializer_v1. cbn.
    rewrite (v1_comprehension items Hitems). eexists. reflexivity.
  - eexists. reflexivity.
Qed.

(** With [embed_only] set, [extract] loads the images and returns what
    [embed_crops] returns. *)
Lemma extract_embed_only (self : Processing) (images : ImagesRequest)
    (max_size : option (list Z)) (threshold : float) (limit_faces : Z)
    (return_face_data extract_embedding extract_ga return_landmarks
     verbose_timings : bool) (api_ver : string) (w w' : World) (out : Dict) :
  let w1 := snd (time_time (snd (time_time w))) in
  let loaded := get_images images w1 in
  let tl0 := fst (time_time (snd (time_time w))) in
  let tl1 := fst (time_time (snd loaded)) in
  let w2 := logging_debug_reading ((tl1 - tl0) * 1000)%float
              (snd (time_time (snd loaded))) in
  embed_crops (fst loaded) extract_embedding extract_ga w2 = (Ok out, w') ->
  extract self images max_size threshold limit_faces true return_face_data
          extract_embedding extract_ga return_landmarks verbose_timings api_ver w
  = (Ok (VDict out), w').
Proof.
  intros w1 loaded tl0 tl1 w2 Hcrops. unfold extract.
  eapply in_frame_run with (l := tt).
  rewrite !bind_in_world, bind_effect, bind_call_world.
  fold w1 loaded tl0 tl1 w2. rewrite Hcrops. reflexivity.
Qed.

Lemma returns_of_is_ok {A : Type} (x : Result A * World) :
  is_ok (fst x) = true -> exists a w', x = (Ok a, w').
Proof. destruct x as [[a|e] w']; [eauto | discriminate]. Qed.

Lemma bind_lift {St A B : Type} (r : Result A) (k : A -> M St B) (s : St) :
  bind (lift r) k s = match r with Ok a => k a s | Raise e => (Raise e, s) end.
Proof. unfold bind, lift. destruct r; reflexivity. Qed.

(** [output['took'][k] = v] on the envelope [embed] returns. *)
Lemma set_took (k : string) (v : pyval) (took : Dict) (items : list pyval) :
  dict_set_in "took" k v [("took", VDict took); ("data", VList items)]
  = Ok [("took", VDict (dict_set k v took)); ("data", VList items)].
Proof. reflexivity. Qed.

(** [extract] always returns. *)
Lemma extract_returns (self : Processing) (images : ImagesRequest)
    (max_size : option (list Z)) (threshold : float) (limit_faces : Z)
    (embed_only return_face_data extract_embedding extract_ga return_landmarks
     verbose_timings : bool) (api_ver : string) (w : World) :
  exists resp w',
    extract self images max_size threshold limit_faces embed_only return_face_data
            extract_embedding extract_ga return_landmarks verbose_timings api_ver w
    = (Ok resp, w').
Proof.
  destruct embed_only.
  - edestruct embed_crops_returns as (out & w' & Hcrops & _).
    eexists _, _. eapply extract_embed_only. exact Hcrops.
  - apply returns_of_is_ok. unfold extract, in_frame. cbn [fst].
    rewrite !bind_in_world, bind_effect, bind_in_world, bind_call_world.
    match goal with
    | |- context [embed ?imgs ?a ?b ?c ?d ?e ?f ?g ?w0] =>
        destruct (embed_aligned a b c d e f g imgs w0) as (items & w4 & Hembed & Hal)
    end.
    rewrite Hembed. cbn [fst snd].
    apply aligned_per_image in Hal as [Hitems _].
    rewrite !bind_in_world. unfold batch_of.
    rewrite bind_lift, set_took.
    destruct verbose_timings; cbn beta iota.
    + erewrite bind_run.
      2:{ rewrite bind_lift, set_took. unfold lift. rewrite set_took. reflexivity. }
      unfold lift.
      edestruct serialize_batch_returns as (resp & ->); [exact Hitems|]. reflexivity.
    + erewrite bind_run; [|reflexivity].
      unfold lift.
      edestruct serialize_batch_returns as (resp & ->); [exact Hitems|]. reflexivity.
Qed.

(** C10. With [embed_only] set, [extract] returns the dict
    [embed_crops] built for the loaded images, whatever the API version,
    the verbose-timing flag and the detection options are; that dict has
    a top-level [status] and [took_ms], no [took] entry, and a [data]
    list of flat entries. *)
Theorem extract_embed_only_skips_serializer
    (self : Processing) (images : ImagesRequest)
    (extract_embedding extract_ga : bool) (w : World) :
  exists out w',
    (forall (max_size : option (list Z)) (threshold : float) (limit_faces : Z)
            (return_face_data return_landmarks verbose_timings : bool)
            (api_ver : string),
        extract self images max_size threshold limit_faces true return_face_data
                extract_embedding extract_ga return_landmarks verbose_timings
                api_ver w
        = (Ok (VDict out), w')) /\
    (let loaded := get_images images (snd (time_time (snd (time_time w)))) in
     let tl0 := fst (time_time (snd (time_time w))) in
     let tl1 := fst (time_time (snd loaded)) in
     embed_crops (fst loaded) extract_embedding extract_ga
       (logging_debug_reading ((tl1 - tl0) * 1000)%float
          (snd (time_time (snd loaded))))
     = (Ok out, w')) /\
    status_tagged out /\
    (exists t, dict_get "took_ms" out = Some (VFloat t)) /\
    dict_get "took" out = None /\
    (exists items, dict_get "data" out = Some (VList items) /\
                   Forall flat_entry items).
Proof.
  edestruct embed_crops_returns
    as (out & w' & Hcrops & Hst & Htook & Hms & items & Hdata & Hflat & _).
  exists out, w'. split.
  - intros. eapply extract_embed_only. exact Hcrops.
  - split; [exact Hcrops|]. repeat split; eauto.
Qed.

End ExtractFacts.

(** ** More on [Serializer] *)

Section SerializerEdges.

(** X1. Version "1" of a dict without a [data] entry is the empty list:
    the default of [data.get('data', [])]. *)
Theorem serializer_v1_without_data (d : Dict) :
  dict_get "data" d = None ->
  Serializer.serialize (VDict d) "1" = Ok (VList []).
Proof.
  intros Hd. unfold Serializer.serialize, Serializer.get_serializer,
    Serializer._serializer_v1.
  cbn. rewrite Hd. reflexivity.
Qed.

Lemma v1_comprehension_dicts (items : list pyval) :
  forallb is_dict items = true ->
  fold_right (fun img acc =>
                let? faces := py_get img "faces" VNone in
                let? rest := acc in
                Ok (faces :: rest))
             (Ok []) items
  = Ok (map pi_faces items).
Proof.
  induction items as [|pi rest IH]; cbn [forallb fold_right map]; [reflexivity|].
  intros H. apply andb_prop in H as [Hpi Hrest].
  rewrite (IH Hrest).
  destruct pi; try discriminate Hpi.
  cbn. destruct (dict_get "faces" d); reflexivity.
Qed.

(** X2. Version "1" of a dict whose [data] is a list of dicts never
    raises: it has one entry per item, in order, which is the item's
    [faces] or [None] when the item has no such key. *)
Theorem serializer_v1_on_dicts (d : Dict) (items : list pyval) :
  dict_get "data" d = Some (VList items) ->
  forallb is_dict items = true ->
  exists resp,
    Serializer.serialize (VDict d) "1" = Ok (VList resp) /\
    List.length resp = List.length items /\
    forall i item,
      nth_error items i = Some item ->
      exists di,
        item = VDict di /\
        nth_error resp i
        = Some (match dict_get "faces" di with Some faces => faces | None => VNone end).
Proof.
  intros Hd Hitems. exists (map pi_faces items). repeat split.
  - unfold Serializer.serialize, Serializer.get_serializer,
      Serializer._serializer_v1.
    cbn. rewrite Hd. cbn. now rewrite (v1_comprehension_dicts items Hitems).
  - apply length_map.
  - intros i item Hi.
    assert (Hdict : is_dict item = true).
    { rewrite forallb_forall in Hitems. apply Hitems.
      eapply nth_error_In; exact Hi. }
    destruct item; try discriminate Hdict.
    eexists. split; [reflexivity|].
    rewrite (map_nth_error pi_faces _ _ Hi). reflexivity.
Qed.

(** X3. Version "1" raises [AttributeError] on a value that is not a
    dict, and on a [data] list at its first item that is not a dict;
    version "2" returns any value whatever. *)
Theorem serializer_v1_raises_on_non_dict :
  (forall v, is_dict v = false ->
     Serializer.serialize v "1"
     = Raise (AttributeError "object has no attribute 'get'") /\
     Serializer.serialize v "2" = Ok v) /\
  (forall d dicts bad rest,
     dict_get "data" d = Some (VList (dicts ++ bad :: rest)) ->
     forallb is_dict dicts = true ->
     is_dict bad = false ->
     Serializer.serialize (VDict d) "1"
     = Raise (AttributeError "object has no attribute 'get'")).
Proof.
  split.
  - intros v Hv. split; [|reflexivity]. destruct v; try reflexivity; discriminate.
  - intros d dicts bad rest Hd Hdicts Hbad.
    unfold Serializer.serialize, Serializer.get_serializer,
      Serializer._serializer_v1.
    cbn. rewrite Hd. cbn [rbind py_iter].
    clear Hd. induction dicts as [|pi dicts IH]; cbn [app fold_right].
    + destruct bad; try discriminate Hbad; reflexivity.
    + cbn [forallb] in Hdicts. apply andb_prop in Hdicts as [Hpi Hdicts].
      destruct pi; try discriminate Hpi.
      specialize (IH Hdicts).
      destruct (fold_right _ _ (dicts ++ bad :: rest)) as [l|e] eqn:E;
        [discriminate IH|].
      cbn in IH. injection IH as ->.
      cbn. destruct (dict_get "faces" d0); reflexivity.
Qed.

End SerializerEdges.

(** ** More on [serialize_face] *)

Section FaceRecordShape.
Context {codec : Codec}.

(** Follows a run of [serialize_face] that returned, one test or one
    call at a time, and turns each call into the fact it establishes. *)
Ltac record_step :=
  match goal with
  | H : context [if truthy ?x then _ else _] |- _ => destruct (truthy x) eqn:?
  | H : context [if ?b then _ else _] |- _ => is_var b; destruct b
  | H : rbind ?r _ = Ok _ |- _ => destruct r eqn:?; cbn [rbind] in H; [|discriminate H]
  | H : Ok _ = Ok ?a |- _ => is_var a; inversion H; subst a; clear H
  | H : Raise _ = Ok _ |- _ => discriminate H
  end.

Ltac record_cases H :=
  unfold serialize_face in H; repeat record_step;
  repeat match goal with
         | E : attr_of _ _ = Ok _ |- _ => apply attr_of_ok in E
         | E : py_float _ = Ok _ |- _ => apply py_float_ok in E
         | E : getitem _ _ = Ok _ |- _ => apply getitem_ok in E
         end.

(** X4. A record has the ten keys of the [dict(...)] call, in that
    order, followed by [facedata] exactly when face data is asked for;
    without the flag no record has a [facedata] entry. *)
Theorem serialize_face_keys
    (face : Face) (return_face_data return_landmarks : bool) (d : Dict) :
  serialize_face face return_face_data return_landmarks = Ok d ->
  map fst d = record_keys ++ (if return_face_data then ["facedata"] else []) /\
  (return_face_data = false -> dict_get "facedata" d = None).
Proof.
  intros H. record_cases H; split; try reflexivity; discriminate.
Qed.

(** X5. [det], [gender] and [age] of a record are the face's [num_det],
    [gender] and [age] unchanged, and [facedata], when asked for, is the
    base64 text of the JPEG the codec makes of the crop. *)
Theorem serialize_face_verbatim
    (face : Face) (return_face_data return_landmarks : bool) (d : Dict) :
  serialize_face face return_face_data return_landmarks = Ok d ->
  dict_get "det" d = Some (num_det face) /\
  dict_get "gender" d = Some (gender face) /\
  dict_get "age" d = Some (age face) /\
  (return_face_data = true ->
   exists buf, imencode_jpg (facedata face) = Ok buf /\
               dict_get "facedata" d = Some (VStr (b64encode buf))).
Proof.
  intros H. record_cases H; repeat split; try reflexivity; try discriminate;
    intros _; eexists; split; try eassumption; reflexivity.
Qed.

(** X6. [serialize_face] returns a record exactly when none of its three
    stages that can raise does: the embedding stage, the detection
    stage and the face-data stage. *)
Theorem serialize_face_returns_iff
    (face : Face) (return_face_data return_landmarks : bool) :
  is_ok (serialize_face face return_face_data return_landmarks)
  = embedding_ready face
    && detection_ready face return_landmarks
    && facedata_ready face return_face_data.
Proof.
  unfold serialize_face, embedding_ready, detection_ready, facedata_ready, getitem.
  destruct (embedding_norm face) as [n|], (normed_embedding face),
    (det_score face) as [s|], (mask_prob face) as [m|], return_face_data,
    (imencode_jpg (facedata face));
    cbn [truthy attr_of py_float rbind is_ok andb];
    repeat match goal with
           | |- context [negb ?b] => destruct (negb b)
           end;
    cbn [rbind is_ok andb]; try reflexivity;
    destruct (bbox face) as [b|]; cbn [attr_of rbind is_ok andb]; try reflexivity;
    destruct (nth_error b 2) as [x2|]; cbn [rbind is_ok andb]; try reflexivity;
    destruct (nth_error b 0) as [x0|]; cbn [rbind is_ok andb]; try reflexivity;
    destruct (py_int (np_sub (dtype b) x2 x0)); cbn [rbind is_ok andb]; try reflexivity;
    destruct return_landmarks; cbn [rbind is_ok andb]; try reflexivity;
    destruct (landmark face); reflexivity.
Qed.

(** X7. Landmarks are emitted, as integers, only for a face whose score
    tests true and only when asked for; asking for them on such a face
    that has none makes [serialize_face] raise. *)
Theorem serialize_face_landmarks
    (face : Face) (return_face_data return_landmarks : bool) :
  (forall d, serialize_face face return_face_data return_landmarks = Ok d ->
     if truthy (det_score face) && return_landmarks
     then exists lm, landmark face = Some lm /\
                     dict_get "landmarks" d = Some (tolist_int2 lm)
     else dict_get "landmarks" d = Some VNone) /\
  (truthy (det_score face) = true -> return_landmarks = true ->
   landmark face = None ->
   is_ok (serialize_face face return_face_data return_landmarks) = false).
Proof.
  split.
  - intros d H. record_cases H; cbn [andb]; try reflexivity;
      try (eexists; split; [eassumption | reflexivity]).
  - intros Hscore -> Hlm. rewrite serialize_face_returns_iff.
    unfold detection_ready. rewrite Hscore, Hlm.
    destruct (bbox face) as [b|]; [|now rewrite andb_false_r].
    destruct (nth_error b 2), (nth_error b 0);
      rewrite ?andb_false_r; reflexivity.
Qed.

(** X8. On a record, [vec] and [norm] hold the normed embedding and the
    norm when the norm tests true and are null otherwise; [mask_prob]
    holds the mask probability when it tests true and is null
    otherwise. *)
Theorem serialize_face_embedding_and_mask
    (face : Face) (return_face_data return_landmarks : bool) (d : Dict) :
  serialize_face face return_face_data return_landmarks = Ok d ->
  (if truthy (embedding_norm face)
   then exists ne n, normed_embedding face = Some ne /\
                     embedding_norm face = Some n /\
                     dict_get "vec" d = Some (tolist_float ne) /\
                     dict_get "norm" d = Some (VFloat n)
   else dict_get "vec" d = Some VNone /\ dict_get "norm" d = Some VNone) /\
  (if truthy (mask_prob face)
   then exists m, mask_prob face = Some m /\
                  dict_get "mask_prob" d = Some (VFloat m)
   else dict_get "mask_prob" d = Some VNone).
Proof.
  intros H. record_cases H; split;
    try (split; reflexivity); try reflexivity;
    try (do 2 eexists; repeat split; try eassumption; reflexivity);
    try (eexists; split; [eassumption | reflexivity]).
Qed.

End FaceRecordShape.

(** ** More on [Processing.embed] *)

Section EmbedShape.
Context {ext : External}.
Variables (max_size : option (list Z)) (threshold : float) (limit_faces : Z)
          (return_face_data extract_embedding extract_ga return_landmarks : bool).

Local Abbreviation embed_image_ image_data :=
  (embed_image image_data max_size threshold limit_faces return_face_data
               extract_embedding extract_ga return_landmarks).
Local Abbreviation embed_ images :=
  (embed images max_size threshold limit_faces return_face_data
         extract_embedding extract_ga return_landmarks).
Local Abbreviation aligned_ :=
  (aligned max_size threshold limit_faces return_face_data
           extract_embedding extract_ga return_landmarks).
Local Abbreviation model_opts :=
  (mkGetOpts max_size threshold return_face_data extract_embedding
             extract_ga limit_faces).
Local Abbreviation append_record :=
  (fun face =>
     _face_dict <- lift (serialize_face face return_face_data return_landmarks) ;;
     local_append "faces" (VDict _face_dict)).

(** X9. An empty batch gives an empty [data] list and leaves the world
    untouched, and a batch cut in two is processed as its first part
    followed by its second part: the results are concatenated. *)
Theorem embed_app (before after : list ImageInput) (w : World) :
  embed_ [] w = (Ok (batch_of []), w) /\
  exists items1 w1 items2 w2,
    embed_ before w = (Ok (batch_of items1), w1) /\
    embed_ after w1 = (Ok (batch_of items2), w2) /\
    embed_ (before ++ after) w = (Ok (batch_of (items1 ++ items2)), w2).
Proof.
  split; [reflexivity|].
  destruct (embed_aligned max_size threshold limit_faces return_face_data
              extract_embedding extract_ga return_landmarks before w)
    as (items1 & w1 & H1 & Hal1).
  destruct (embed_aligned max_size threshold limit_faces return_face_data
              extract_embedding extract_ga return_landmarks after w1)
    as (items2 & w2 & H2 & Hal2).
  exists items1, w1, items2, w2. repeat split; try assumption.
  apply aligned_embed. eapply aligned_app; eassumption.
Qed.

(** X10. A batch in which every image failed to load is answered
    without the model: each result is the failure record with the
    image's load trace, and the world has only had its clock read, once
    per image. *)
Theorem embed_all_load_failures
    (images : list ImageInput) (traces : list string) (w : World) :
  Forall2 (fun image tb => img_traceback image = Some tb) images traces ->
  embed_ images w
  = (Ok (batch_of (map (fun tb => VDict (load_failure tb)) traces)),
     clock_reads (List.length images) w).
Proof.
  intros Hall. apply aligned_embed. revert w.
  induction Hall as [|image tb images traces Htb _ IH]; intros w.
  - constructor.
  - cbn [map List.length clock_reads]. econstructor; [|apply IH].
    now apply embed_image_load_failure.
Qed.

(** The loop over the faces appends the record of each face. *)
Lemma append_records_run (faces : list Face) (records : list Dict)
    (st : string) (t : float) (fs : list pyval) (w : World) :
  Forall2 (fun f r => serialize_face f return_face_data return_landmarks = Ok r)
          faces records ->
  for_each faces append_record (per_image st t fs, w)
  = (Ok tt, (per_image st t (fs ++ map VDict records), w)).
Proof.
  intros Hall. revert fs. induction Hall as [|face r faces records Hr _ IH]; intros fs.
  - cbn. now rewrite app_nil_r.
  - cbn [for_each map]. erewrite bind_run.
    2:{ erewrite bind_run; [|unfold lift; rewrite Hr; reflexivity]. reflexivity. }
    specialize (IH (fs ++ [VDict r])). rewrite <- app_assoc in IH. exact IH.
Qed.

(** X11. When the model returns faces that all serialize, the image's
    result has status "ok", one record per face in the order the model
    gave them, the elapsed time in milliseconds between the two clock
    readings, and no [traceback] entry; nothing is printed. *)
Theorem embed_image_ok
    (image_data : ImageInput) (faces : list Face) (records : list Dict)
    (w w2 : World) :
  img_traceback image_data = None ->
  model_get (img_data image_data) model_opts (snd (time_time w)) = (Ok faces, w2) ->
  Forall2 (fun f r => serialize_face f return_face_data return_landmarks = Ok r)
          faces records ->
  embed_image_ image_data w
  = (Ok (per_image "ok"
           ((fst (time_time w2) - fst (time_time w)) * 1000)%float
           (map VDict records)),
     snd (time_time w2)).
Proof.
  intros Htb Hm Hall. unfold embed_image, embed_try. rewrite Htb.
  eapply in_frame_run.
  erewrite bind_run.
  2:{ erewrite try_except_run.
      2:{ rewrite bind_in_world, bind_call_world, Hm. cbn [fst snd].
          erewrite bind_run; [|exact (append_records_run "" 0 [] w2 Hall)].
          rewrite bind_in_world, bind_local_set. apply local_set_run. }
      reflexivity. }
  reflexivity.
Qed.

(** X12. When [serialize_face] raises on a face, the image's result has
    status "failed", keeps the records of the faces serialized before
    it, has a [took_ms] of zero, and drops the faces after it; the trace
    is printed once and the clock is not read again. *)
Theorem embed_image_partial_faces
    (image_data : ImageInput) (built rest : list Face) (face : Face)
    (records : list Dict) (w w2 : World) (e : Exn) :
  img_traceback image_data = None ->
  model_get (img_data image_data) model_opts (snd (time_time w))
  = (Ok (built ++ face :: rest), w2) ->
  Forall2 (fun f r => serialize_face f return_face_data return_landmarks = Ok r)
          built records ->
  serialize_face face return_face_data return_landmarks = Raise e ->
  embed_image_ image_data w
  = (Ok (per_image "failed" 0 (map VDict records)
         ++ [("traceback", VStr (format_exc e))]),
     print (format_exc e) w2).
Proof.
  intros Htb Hm Hall Hface. unfold embed_image, embed_try. rewrite Htb.
  eapply in_frame_run.
  erewrite bind_run.
  2:{ erewrite try_except_run.
      2:{ rewrite bind_in_world, bind_call_world, Hm. cbn [fst snd].
          erewrite bind_run.
          2:{ rewrite for_each_app.
              erewrite bind_run; [|exact (append_records_run "" 0 [] w2 Hall)].
              cbn [for_each]. erewrite bind_run.
              2:{ erewrite bind_run; [|unfold lift; rewrite Hface; reflexivity].
                  reflexivity. }
              reflexivity. }
          reflexivity. }
      apply (embed_except_run e "" 0 (map VDict records)). }
  reflexivity.
Qed.

(** X13. When the model call raises, the image's result has status
    "failed", no faces and a [took_ms] of zero; the trace is printed
    once, and [serialize_face] and the second clock reading are
    skipped. *)
Theorem embed_image_model_failure
    (image_data : ImageInput) (w w2 : World) (e : Exn) :
  img_traceback image_data = None ->
  model_get (img_data image_data) model_opts (snd (time_time w)) = (Raise e, w2) ->
  embed_image_ image_data w
  = (Ok (per_image "failed" 0 [] ++ [("traceback", VStr (format_exc e))]),
     print (format_exc e) w2).
Proof.
  intros Htb Hm. unfold embed_image, embed_try. rewrite Htb.
  eapply in_frame_run.
  erewrite bind_run.
  2:{ erewrite try_except_run.
      2:{ rewrite bind_in_world, bind_call_world, Hm. reflexivity. }
      apply (embed_except_run e "" 0 []). }
  reflexivity.
Qed.

End EmbedShape.

(** ** More on [Processing.extract] and [Processing.__init__] *)

Section ExtractShape.
Context {ext : External}.

(** X14. Without [embed_only] and with version "1", [extract] returns
    one list of faces per loaded image, in order: the [faces] of the
    results [embed] gives for the loaded images.  The verbose-timing
    flag changes nothing in it. *)
Theorem extract_v1_lists_faces
    (self : Processing) (images : ImagesRequest)
    (max_size : option (list Z)) (threshold : float) (limit_faces : Z)
    (return_face_data extract_embedding extract_ga return_landmarks : bool)
    (w : World) :
  let loaded := get_images images (snd (time_time (snd (time_time w)))) in
  let tl0 := fst (time_time (snd (time_time w))) in
  let tl1 := fst (time_time (snd loaded)) in
  let w3 := snd (time_time
                   (logging_debug_reading ((tl1 - tl0) * 1000)%float
                      (snd (time_time (snd loaded))))) in
  let max_size' :=
    if not_max_size max_size then Some (self_max_size self) else max_size in
  exists items w4,
    embed (fst loaded) max_size' threshold limit_faces return_face_data
          extract_embedding extract_ga return_landmarks w3
    = (Ok (batch_of items), w4) /\
    List.length items = List.length (fst loaded) /\
    forall verbose_timings,
      extract self images max_size threshold limit_faces false return_face_data
              extract_embedding extract_ga return_landmarks verbose_timings "1" w
      = (Ok (VList (map pi_faces items)), snd (time_time (snd (time_time w4)))).
Proof.
  intros loaded tl0 tl1 w3 max_size'.
  destruct (embed_aligned max_size' threshold limit_faces return_face_data
              extract_embedding extract_ga return_landmarks (fst loaded) w3)
    as (items & w4 & Hembed & Hal).
  exists items, w4. split; [exact Hembed|]. split; [exact (aligned_length Hal)|].
  apply aligned_per_image in Hal as [Hitems _].
  intros verbose_timings. unfold extract.
  eapply in_frame_run with (l := tt).
  rewrite !bind_in_world, bind_effect, bind_in_world, bind_call_world.
  fold loaded tl0 tl1 w3 max_size'. rewrite Hembed. cbn [fst snd].
  rewrite !bind_in_world. unfold batch_of.
  rewrite bind_lift, set_took.
  assert (Hv1 : forall took,
             Serializer.serialize (VDict [("took", VDict took); ("data", VList items)]) "1"
             = Ok (VList (map pi_faces items))).
  { intros took. unfold Serializer.serialize, Serializer.get_serializer,
      Serializer._serializer_v1. cbn.
    now rewrite (v1_comprehension items Hitems). }
  destruct verbose_timings; cbn beta iota.
  - erewrite bind_run.
    2:{ rewrite bind_lift, set_took. unfold lift. rewrite set_took. reflexivity. }
    unfold lift. rewrite Hv1. reflexivity.
  - erewrite bind_run; [|reflexivity].
    unfold lift. rewrite Hv1. reflexivity.
Qed.

(** X15. Without [embed_only] and with a version other than "1",
    [extract] returns the envelope of [embed] with [took] filled in:
    [total_ms] alone, or [total_ms], [read_imgs_ms] and [embed_all_ms]
    in that order when verbose timings are asked for; [data] is what
    [embed] returned, statuses and traces included. *)
Theorem extract_v2_envelope
    (self : Processing) (images : ImagesRequest)
    (max_size : option (list Z)) (threshold : float) (limit_faces : Z)
    (return_face_data extract_embedding extract_ga return_landmarks
     verbose_timings : bool) (api_ver : string) (w : World) :
  api_ver <> "1" ->
  let t0 := fst (time_time w) in
  let loaded := get_images images (snd (time_time (snd (time_time w)))) in
  let tl0 := fst (time_time (snd (time_time w))) in
  let tl1 := fst (time_time (snd loaded)) in
  let w2 := logging_debug_reading ((tl1 - tl0) * 1000)%float
              (snd (time_time (snd loaded))) in
  let te0 := fst (time_time w2) in
  let max_size' :=
    if not_max_size max_size then Some (self_max_size self) else max_size in
  exists items w4,
    embed (fst loaded) max_size' threshold limit_faces return_face_data
          extract_embedding extract_ga return_landmarks (snd (time_time w2))
    = (Ok (batch_of items), w4) /\
    let te1 := fst (time_time w4) in
    let t1 := fst (time_time (snd (time_time w4))) in
    extract self images max_size threshold limit_faces false return_face_data
            extract_embedding extract_ga return_landmarks verbose_timings api_ver w
    = (Ok (VDict
             [("took",
               VDict (("total_ms", VFloat ((t1 - t0) * 1000)%float)
                      :: if verbose_timings
                         then [("read_imgs_ms", VFloat ((tl1 - tl0) * 1000)%float);
                               ("embed_all_ms", VFloat ((te1 - te0) * 1000)%float)]
                         else []));
              ("data", VList items)]),
       snd (time_time (snd (time_time w4)))).
Proof.
  intros Hver t0 loaded tl0 tl1 w2 te0 max_size'.
  destruct (embed_aligned max_size' threshold limit_faces return_face_data
              extract_embedding extract_ga return_landmarks (fst loaded)
              (snd (time_time w2)))
    as (items & w4 & Hembed & _).
  exists items, w4. split; [exact Hembed|].
  intros te1 t1. unfold extract.
  eapply in_frame_run with (l := tt).
  rewrite !bind_in_world, bind_effect, bind_in_world, bind_call_world.
  fold t0 loaded tl0 tl1 w2 te0 max_size'. rewrite Hembed. cbn [fst snd].
  rewrite !bind_in_world. unfold batch_of. fold te1 t1.
  rewrite bind_lift, set_took.
  assert (Hv2 : forall v, Serializer.serialize v api_ver = Ok v).
  { intros v. unfold Serializer.serialize, Serializer.get_serializer.
    destruct (String.eqb_spec api_ver "1"); [contradiction | reflexivity]. }
  destruct verbose_timings; cbn beta iota.
  - erewrite bind_run.
    2:{ rewrite bind_lift, set_took. unfold lift. rewrite set_took. reflexivity. }
    unfold lift. rewrite Hv2. reflexivity.
  - erewrite bind_run; [|reflexivity].
    unfold lift. rewrite Hv2. reflexivity.
Qed.


End ExtractShape.

(** ** More on [Processing.embed_crops] *)

Section CropsShape.
Context {ext : External}.

(** X17. [__iterate_faces] hands the model one crop per image that
    loaded, in input order, each carrying the image's data and nothing
    else: no score, no box, no embedding. *)
Theorem iterate_faces_loaded (images : list ImageInput) :
  iterate_faces images
  = map (fun image => Face_of_facedata (img_data image)) (filter is_loaded images) /\
  List.length (iterate_faces images) + List.length (filter (fun i => negb (is_loaded i)) images)
  = List.length images /\
  Forall (fun f => det_score f = None /\ bbox f = None /\ embedding_norm f = None)
         (iterate_faces images).
Proof.
  induction images as [|image rest (IHeq & IHlen & IHall)].
  - repeat split. constructor.
  - cbn [iterate_faces filter].
    assert (Hl : is_loaded image
                 = match img_traceback image with None => true | Some _ => false end)
      by reflexivity.
    rewrite !Hl. clear Hl.
    destruct (img_traceback image) as [tb|]; cbn [negb map List.length].
    + repeat split; [exact IHeq | | exact IHall].
      rewrite <- IHlen. lia.
    + repeat split; [now rewrite IHeq | now rewrite <- IHlen |].
      constructor; [repeat split | exact IHall].
Qed.

(** The loop of [embed_crops] when the sequence yields a face for every
    loaded image and every face serializes. *)
Lemma crops_loop_yields (images : list ImageInput) :
  forall (faces : list Face) (records : list Dict) (items : list pyval)
         (g g' : Generator) (w w' : World),
    yields g w faces g' w' ->
    List.length faces = List.length (iterate_faces images) ->
    Forall2 (fun f r => serialize_face f false false = Ok r) faces records ->
    for_each images crops_iteration (mkCropsLocals (crops_output items) g, w)
    = (Ok tt, (mkCropsLocals (crops_output (items ++ crops_entries images records)) g', w')).
Proof.
  induction images as [|image rest IH];
    intros faces records items g g' w w' Hy Hlen Hser.
  - cbn in Hlen. destruct faces; [|discriminate Hlen].
    inversion Hy; subst. cbn. now rewrite app_nil_r.
  - cbn [for_each iterate_faces crops_entries] in *.
    unfold bind at 1. rewrite crops_iteration_run.
    destruct (img_traceback image) as [tb|].
    + specialize (IH faces records
                     (items ++ [VDict [("status", VStr "failed"); ("traceback", VStr tb)]])
                     g g' w w' Hy Hlen Hser).
      rewrite <- app_assoc in IH. exact IH.
    + destruct faces as [|f fs]; [discriminate Hlen|].
      inversion Hy; subst. inversion Hser; subst.
      match goal with H : next g w = _ |- _ => rewrite H end.
      match goal with H : serialize_face f false false = _ |- _ => rewrite H end.
      cbn in Hlen. injection Hlen as Hlen.
      match goal with
      | Hy' : yields _ _ fs _ _, Hs' : Forall2 _ fs _ |- _ =>
          specialize (IH fs _ (items ++ [VDict y]) _ _ _ _ Hy' Hlen Hs')
      end.
      rewrite <- app_assoc in IH. exact IH.
Qed.

Lemma crops_entries_length (images : list ImageInput) (records : list Dict) :
  List.length records = List.length (iterate_faces images) ->
  List.length (crops_entries images records) = List.length images.
Proof.
  revert records. induction images as [|image rest IH]; intros records Hlen.
  - reflexivity.
  - cbn [iterate_faces crops_entries] in *.
    destruct (img_traceback image).
    + cbn. now rewrite IH.
    + destruct records as [|r rs]; [discriminate Hlen|].
      cbn in *. rewrite IH; congruence.
Qed.

Lemma crops_entries_nth (images : list ImageInput) (records : list Dict) :
  List.length records = List.length (iterate_faces images) ->
  forall i image,
    nth_error images i = Some image ->
    nth_error (crops_entries images records) i
    = match img_traceback image with
      | Some tb => Some (VDict (crop_failure tb))
      | None =>
          option_map VDict
            (nth_error records (List.length (iterate_faces (firstn i images))))
      end.
Proof.
  revert records. induction images as [|im rest IH]; intros records Hlen i image Hi.
  - destruct i; discriminate Hi.
  - destruct i as [|i].
    + cbn in Hi. injection Hi as ->.
      cbn [iterate_faces crops_entries firstn] in *.
      destruct (img_traceback image); [reflexivity|].
      destruct records; [discriminate Hlen | reflexivity].
    + cbn [nth_error firstn iterate_faces crops_entries] in *.
      destruct (img_traceback im).
      * cbn [nth_error]. now apply IH.
      * destruct records as [|r rs]; [discriminate Hlen|].
        cbn [nth_error List.length]. cbn in Hlen. apply IH; congruence.
Qed.

(** X18. When the lazy sequence yields one analyzed face per loaded
    image and every face serializes, [embed_crops] answers with status
    "ok" and one entry per input image at the image's own position: the
    failure entry for an image that failed to load, and for a loaded
    image the record of the face yielded for it, the k-th face for the
    k-th loaded image. *)
Theorem embed_crops_aligned
    (images : list ImageInput) (extract_embedding extract_ga : bool)
    (faces : list Face) (records : list Dict)
    (g' : Generator) (w w' : World) :
  yields (process_faces (iterate_faces images) extract_embedding extract_ga false)
         (snd (time_time w)) faces g' w' ->
  List.length faces = List.length (iterate_faces images) ->
  Forall2 (fun f r => serialize_face f false false = Ok r) faces records ->
  let entries := crops_entries images records in
  embed_crops images extract_embedding extract_ga w
  = (Ok [("took_ms", VFloat ((fst (time_time w') - fst (time_time w)) * 1000)%float);
         ("data", VList entries);
         ("status", VStr "ok")],
     snd (time_time w')) /\
  List.length entries = List.length images /\
  forall i image,
    nth_error images i = Some image ->
    nth_error entries i
    = match img_traceback image with
      | Some tb => Some (VDict (crop_failure tb))
      | None =>
          option_map VDict
            (nth_error records (List.length (iterate_faces (firstn i images))))
      end.
Proof.
  intros Hy Hlen Hser entries.
  assert (Hrec : List.length records = List.length (iterate_faces images)).
  { rewrite <- Hlen. symmetry. eapply Forall2_length; exact Hser. }
  split; [|split].
  - unfold embed_crops. eapply in_frame_run.
    rewrite bind_in_world. erewrite bind_run.
    2:{ erewrite try_except_run.
        2:{ exact (@crops_loop_yields images faces records [] _ _ _ _ Hy Hlen Hser). }
        reflexivity. }
    reflexivity.
  - now apply crops_entries_length.
  - now apply crops_entries_nth.
Qed.

(** X19. When every image failed to load, [embed_crops] never advances
    the lazy sequence: the world has only had its clock read twice, each
    entry is the image's failure entry, and the top-level status is
    "ok". *)
Theorem embed_crops_all_load_failures
    (images : list ImageInput) (traces : list string)
    (extract_embedding extract_ga : bool) (w : World) :
  Forall2 (fun image tb => img_traceback image = Some tb) images traces ->
  embed_crops images extract_embedding extract_ga w
  = (Ok [("took_ms",
          VFloat ((fst (time_time (snd (time_time w))) - fst (time_time w)) * 1000)%float);
         ("data", VList (map (fun tb => VDict (crop_failure tb)) traces));
         ("status", VStr "ok")],
     clock_reads 2 w).
Proof.
  intros Hall.
  assert (Hit : iterate_faces images = []
                /\ crops_entries images [] = map (fun tb => VDict (crop_failure tb)) traces).
  { induction Hall as [|image tb images traces Htb _ [IH1 IH2]]; [split; reflexivity|].
    cbn [iterate_faces crops_entries map]. rewrite Htb. split; [exact IH1|].
    now rewrite IH2. }
  destruct Hit as [Hit Hentries].
  destruct (@embed_crops_aligned images extract_embedding extract_ga [] []
              (process_faces (iterate_faces images) extract_embedding extract_ga false)
              w (snd (time_time w))) as (Hrun & _).
  - constructor.
  - now rewrite Hit.
  - constructor.
  - rewrite Hentries in Hrun. exact Hrun.
Qed.

(** The loop of [embed_crops] either completes with one entry per image
    or stops with fewer entries than images. *)
Lemma crops_loop_outcome (images : list ImageInput) (items : list pyval)
    (g : Generator) (w : World) :
  exists r new g' w',
    for_each images crops_iteration (mkCropsLocals (crops_output items) g, w)
    = (r, (mkCropsLocals (crops_output (items ++ new)) g', w')) /\
    match r with
    | Ok _ => List.length new = List.length images
    | Raise _ => (List.length new < List.length images)%nat
    end.
Proof.
  revert items g w. induction images as [|image rest IH]; intros items g w.
  - exists (Ok tt), [], g, w. rewrite app_nil_r. split; reflexivity.
  - cbn [for_each]. unfold bind at 1. rewrite crops_iteration_run.
    destruct (img_traceback image) as [tb|].
    + destruct (IH (items ++ [VDict [("status", VStr "failed"); ("traceback", VStr tb)]]) g w)
        as (r & new & g' & w' & Hrun & Hlen).
      eexists r, (_ :: new), g', w'. rewrite Hrun, <- app_assoc.
      split; [reflexivity|]. destruct r; cbn; lia.
    + destruct (next g w) as [[[face|e] g1] w1].
      * destruct (serialize_face face false false) as [d|e].
        -- destruct (IH (items ++ [VDict d]) g1 w1) as (r & new & g' & w' & Hrun & Hlen).
           eexists r, (_ :: new), g', w'. rewrite Hrun, <- app_assoc.
           split; [reflexivity|]. destruct r; cbn; lia.
        -- exists (Raise e), [], g1, w1. rewrite app_nil_r.
           split; [reflexivity | cbn; lia].
      * exists (Raise e), [], g1, w1. rewrite app_nil_r.
        split; [reflexivity | cbn; lia].
Qed.

(** X20. The top-level status of [embed_crops] tells whether [data] is
    complete: with "ok" there is one entry per input image and no
    [traceback]; with "failed" there is a [traceback] and [data] has
    fewer entries than there are images. *)
Theorem embed_crops_status_tells_completeness
    (images : list ImageInput) (extract_embedding extract_ga : bool) (w : World) :
  exists out w' items,
    embed_crops images extract_embedding extract_ga w = (Ok out, w') /\
    dict_get "data" out = Some (VList items) /\
    ((dict_get "status" out = Some (VStr "ok") /\
      dict_get "traceback" out = None /\
      List.length items = List.length images)
     \/
     (dict_get "status" out = Some (VStr "failed") /\
      (exists tb, dict_get "traceback" out = Some (VStr tb)) /\
      (List.length items < List.length images)%nat)).
Proof.
  set (g := process_faces (iterate_faces images) extract_embedding extract_ga false).
  destruct (crops_loop_outcome images [] g (snd (time_time w)))
    as (r & new & g' & w1 & Hrun & Hlen).
  destruct r as [[]|e].
  - eexists _, _, new. split.
    + unfold embed_crops. fold g. eapply in_frame_run.
      rewrite bind_in_world. erewrite bind_run.
      2:{ erewrite try_except_run; [|exact Hrun]. reflexivity. }
      reflexivity.
    + split; [reflexivity|]. left. repeat split. exact Hlen.
  - eexists _, _, new. split.
    + unfold embed_crops. fold g. eapply in_frame_run.
      rewrite bind_in_world. erewrite bind_run.
      2:{ erewrite try_except_run; [|exact Hrun]. reflexivity. }
      reflexivity.
    + split; [reflexivity|]. right. repeat split; [eexists; reflexivity | exact Hlen].
Qed.

End CropsShape.

(** ** The propagation policy *)

Section PropagationPolicy.
Context {ext : External}.

(** The first face that cannot be serialized is the same however the
    list is cut. *)
Lemma first_failure_unique (rfd rl : bool) (built built' rest rest' : list Face)
    (face face' : Face) (e e' : Exn) :
  built ++ face :: rest = built' ++ face' :: rest' ->
  Forall (fun f => is_ok (serialize_face f rfd rl) = true) built ->
  Forall (fun f => is_ok (serialize_face f rfd rl) = true) built' ->
  serialize_face face rfd rl = Raise e ->
  serialize_face face' rfd rl = Raise e' ->
  e = e'.
Proof.
  revert built'. induction built as [|f built IH]; intros [|f' built'] Heq Hb Hb' Hf Hf';
    cbn in Heq; injection Heq as Hhd Htl.
  - subst face'. congruence.
  - subst f'. inversion Hb' as [|? ? Hok _]. rewrite Hf in Hok. discriminate.
  - subst f. inversion Hb as [|? ? Hok _]. rewrite Hf' in Hok. discriminate.
  - inversion Hb; inversion Hb'; subst. eapply IH; eassumption.
Qed.

(** Every face serializes, or there is a first one that does not. *)
Lemma first_failure (rfd rl : bool) (faces : list Face) :
  Forall (fun f => is_ok (serialize_face f rfd rl) = true) faces \/
  exists built face rest e,
    faces = built ++ face :: rest /\
    Forall (fun f => is_ok (serialize_face f rfd rl) = true) built /\
    serialize_face face rfd rl = Raise e.
Proof.
  induction faces as [|f faces IH].
  - left. constructor.
  - destruct (serialize_face f rfd rl) as [d|e] eqn:Hf.
    + destruct IH as [Hall | (built & face & rest & e & -> & Hb & He)].
      * left. constructor; [now rewrite Hf | exact Hall].
      * right. exists (f :: built), face, rest, e. repeat split; [|exact He].
        constructor; [now rewrite Hf | exact Hb].
    + right. exists [], f, faces, e. repeat split; [constructor | exact Hf].
Qed.

Section OneImage.
Variables (max_size : option (list Z)) (threshold : float) (limit_faces : Z)
          (return_face_data extract_embedding extract_ga return_landmarks : bool).

Local Abbreviation embed_image1 image_data :=
  (embed_image image_data max_size threshold limit_faces return_face_data
               extract_embedding extract_ga return_landmarks).
Local Abbreviation raises1 :=
  (processing_raises max_size threshold limit_faces return_face_data
                     extract_embedding extract_ga return_landmarks).

Lemma processing_raises_functional (image_data : ImageInput) (w : World) (e e' : Exn) :
  raises1 image_data w e -> raises1 image_data w e' -> e = e'.
Proof.
  intros [_ Hm | faces built rest face _ Hm Hf Hb He]
         [_ Hm' | faces' built' rest' face' _ Hm' Hf' Hb' He']; try congruence.
  rewrite Hm in Hm'. injection Hm' as <-. subst faces.
  eapply first_failure_unique; eassumption.
Qed.

(** What [embed_image] returns tells what happened to the image. *)
Lemma embed_image_outcome (image_data : ImageInput) (w : World) :
  exists r w',
    embed_image1 image_data w = (Ok r, w') /\
    (exists faces, dict_get "faces" r = Some (VList faces)) /\
    (forall tb, img_traceback image_data = Some tb ->
       dict_get "status" r = Some (VStr "failed") /\
       dict_get "traceback" r = Some (VStr tb)) /\
    (forall e, raises1 image_data w e ->
       dict_get "status" r = Some (VStr "failed") /\
       dict_get "traceback" r = Some (VStr (format_exc e))) /\
    (img_traceback image_data = None ->
     (forall e, ~ raises1 image_data w e) ->
     dict_get "status" r = Some (VStr "ok") /\
     dict_get "traceback" r = None).
Proof.
  destruct (img_traceback image_data) as [tb|] eqn:Htb.
  - exists (load_failure tb), (snd (time_time w)).
    split; [now apply embed_image_load_failure|].
    split; [eexists; reflexivity|].
    split; [intros tb' [= <-]; split; reflexivity|].
    split; [|discriminate].
    intros e [Hn _ | ? ? ? ? Hn _ _ _ _]; congruence.
  - set (opts := mkGetOpts max_size threshold return_face_data extract_embedding
                           extract_ga limit_faces).
    assert (Hcase :
      (exists e, raises1 image_data w e) \/
      (exists faces, fst (model_get (img_data image_data) opts (snd (time_time w))) = Ok faces /\
                     Forall (fun f => is_ok (serialize_face f return_face_data return_landmarks) = true) faces)).
    { destruct (fst (model_get (img_data image_data) opts (snd (time_time w))))
        as [faces|e] eqn:Hm.
      - destruct (first_failure return_face_data return_landmarks faces)
          as [Hall | (built & face & rest & e & Hf & Hb & He)].
        + right. eauto.
        + left. exists e. eapply raises_in_record_building; eassumption.
      - left. exists e. now apply raises_in_model_call. }
    destruct Hcase as [(e0 & He0) | (faces & Hm & Hall)].
    + destruct (embed_image_raises He0) as (fs & w' & Hrun).
      eexists _, w'. split; [exact Hrun|].
      split; [eexists; reflexivity|].
      split; [discriminate|].
      split.
      * intros e He. rewrite (processing_raises_functional He He0).
        split; reflexivity.
      * intros _ Hno. destruct (Hno e0 He0).
    + destruct (build_records_ok return_face_data return_landmarks "" 0 []
                  (snd (model_get (img_data image_data) opts (snd (time_time w)))) Hall)
        as (new & Hrun).
      eexists _, _. split.
      * unfold embed_image, embed_try. rewrite Htb.
        eapply in_frame_run.
        erewrite bind_run.
        2:{ erewrite try_except_run.
            2:{ rewrite bind_in_world, bind_call_world. fold opts. rewrite Hm.
                erewrite bind_run; [|exact Hrun].
                rewrite bind_in_world, bind_local_set. apply local_set_run. }
            reflexivity. }
        reflexivity.
      * split; [eexists; reflexivity|].
        split; [discriminate|].
        split; [|intros _ _; split; reflexivity].
        intros e [_ Hm' | faces' built rest face _ Hm' Hf Hb He].
        -- fold opts in Hm'. congruence.
        -- fold opts in Hm'. rewrite Hm in Hm'. injection Hm' as <-. subst faces.
           apply Forall_app in Hall as [_ Hall].
           inversion Hall as [|? ? Hok _]. rewrite He in Hok. discriminate.
Qed.

End OneImage.

Lemma crops_raises_functional (images : list ImageInput) (g : Generator) (w : World)
    (e e' : Exn) :
  crops_raises images g w e -> crops_raises images g w e' -> e = e'.
Proof.
  intros H. revert e'.
  induction H as [image rest g g' w w' e Htb Hn
                 |image rest g g' w w' face e Htb Hn Hf
                 |image rest g w tb e Htb _ IH
                 |image rest g g' w w' face d e Htb Hn Hf _ IH];
    intros e' H'; inversion H'; subst; try congruence;
    repeat match goal with
           | H1 : next ?g ?w = _, H2 : next ?g ?w = _ |- _ =>
               rewrite H1 in H2; injection H2 as ? ? ?; subst
           end;
    try congruence; try (now apply IH).
Qed.

(** The loop of [embed_crops] raises exactly what the first failing step
    raises, and then holds fewer entries than there are images. *)
Lemma crops_loop_failure (images : list ImageInput) (items : list pyval)
    (g : Generator) (w : World) :
  exists r new g' w',
    for_each images crops_iteration (mkCropsLocals (crops_output items) g, w)
    = (r, (mkCropsLocals (crops_output (items ++ new)) g', w')) /\
    Forall flat_entry new /\
    match r with
    | Ok _ => List.length new = List.length images /\
              forall e, ~ crops_raises images g w e
    | Raise e => (List.length new < List.length images)%nat /\
                 crops_raises images g w e
    end.
Proof.
  revert items g w. induction images as [|image rest IH]; intros items g w.
  - exists (Ok tt), [], g, w. rewrite app_nil_r.
    split; [reflexivity|]. split; [constructor|]. split; [reflexivity|].
    intros e H. inversion H.
  - cbn [for_each]. unfold bind at 1. rewrite crops_iteration_run.
    destruct (img_traceback image) as [tb|] eqn:Htb.
    + destruct (IH (items ++ [VDict [("status", VStr "failed"); ("traceback", VStr tb)]]) g w)
        as (r & new & g' & w' & Hrun & Hflat & Hr).
      eexists r, (_ :: new), g', w'. rewrite Hrun, <- app_assoc.
      split; [reflexivity|]. split.
      { constructor; [|exact Hflat]. eexists. split; reflexivity. }
      destruct r as [[]|e]; destruct Hr as [Hlen Hrs]; (split; [cbn; lia|]).
      * intros e H. inversion H; subst; try congruence. eapply Hrs; eassumption.
      * eapply raises_after_load_failure; eassumption.
    + destruct (next g w) as [[[face|e] g1] w1] eqn:Hn.
      * destruct (serialize_face face false false) as [d|e] eqn:Hface.
        -- destruct (IH (items ++ [VDict d]) g1 w1)
             as (r & new & g' & w' & Hrun & Hflat & Hr).
           eexists r, (_ :: new), g', w'. rewrite Hrun, <- app_assoc.
           split; [reflexivity|]. split.
           { constructor; [|exact Hflat]. exists d. split; [reflexivity|].
             eapply serialize_face_no_faces_key; exact Hface. }
           destruct r as [[]|e]; destruct Hr as [Hlen Hrs]; (split; [cbn; lia|]).
           ++ intros e H. inversion H; subst; try congruence.
              match goal with
              | H2 : next g w = (Ok ?f, ?g2, ?w2), H3 : crops_raises rest ?g2 ?w2 e |- _ =>
                  rewrite Hn in H2; injection H2 as <- <- <-; exact (Hrs e H3)
              end.
           ++ eapply raises_after_record; eassumption.
        -- exists (Raise e), [], g1, w1. rewrite app_nil_r.
           split; [reflexivity|]. split; [constructor|]. split; [cbn; lia|].
           eapply raises_in_serialize_face; eassumption.
      * exists (Raise e), [], g1, w1. rewrite app_nil_r.
        split; [reflexivity|]. split; [constructor|]. split; [cbn; lia|].
        eapply raises_in_next; eassumption.
Qed.

(** What [extract] returns on the batch path, for every version. *)
Lemma extract_batch (self : Processing) (images : ImagesRequest)
    (max_size : option (list Z)) (threshold : float) (limit_faces : Z)
    (return_face_data extract_embedding extract_ga return_landmarks
     verbose_timings : bool) (api_ver : string) (w : World) :
  let loaded := get_images images (snd (time_time (snd (time_time w)))) in
  let tl0 := fst (time_time (snd (time_time w))) in
  let tl1 := fst (time_time (snd loaded)) in
  let w2 := logging_debug_reading ((tl1 - tl0) * 1000)%float
              (snd (time_time (snd loaded))) in
  let max_size' :=
    if not_max_size max_size then Some (self_max_size self) else max_size in
  exists items w4 took t,
    embed (fst loaded) max_size' threshold limit_faces return_face_data
          extract_embedding extract_ga return_landmarks (snd (time_time w2))
    = (Ok (batch_of items), w4) /\
    dict_get "total_ms" took = Some (VFloat t) /\
    extract self images max_size threshold limit_faces false return_face_data
            extract_embedding extract_ga return_landmarks verbose_timings api_ver w
    = (Ok (if String.eqb api_ver "1"
           then VList (map pi_faces items)
           else VDict [("took", VDict took); ("data", VList items)]),
       snd (time_time (snd (time_time w4)))).
Proof.
  intros loaded tl0 tl1 w2 max_size'.
  destruct (embed_aligned max_size' threshold limit_faces return_face_data
              extract_embedding extract_ga return_landmarks (fst loaded)
              (snd (time_time w2)))
    as (items & w4 & Hembed & Hal).
  apply aligned_per_image in Hal as [Hitems _].
  assert (Hser : forall took,
             Serializer.serialize (VDict [("took", VDict took); ("data", VList items)])
                                  api_ver
             = Ok (if String.eqb api_ver "1"
                   then VList (map pi_faces items)
                   else VDict [("took", VDict took); ("data", VList items)])).
  { intros took. unfold Serializer.serialize, Serializer.get_serializer.
    destruct (String.eqb api_ver "1"); [|reflexivity].
    unfold Serializer._serializer_v1. cbn.
    now rewrite (v1_comprehension items Hitems). }
  exists items, w4. destruct verbose_timings.
  - eexists _, _. split; [exact Hembed|]. apply and_comm. split.
    { unfold extract. eapply in_frame_run with (l := tt).
      rewrite !bind_in_world, bind_effect, bind_in_world, bind_call_world.
      fold loaded tl0 tl1 w2 max_size'. rewrite Hembed. cbn [fst snd].
      rewrite !bind_in_world. unfold batch_of.
      rewrite bind_lift, set_took. cbn beta iota.
      erewrite bind_run.
      2:{ rewrite bind_lift, set_took. unfold lift. rewrite set_took. reflexivity. }
      unfold lift. rewrite Hser. reflexivity. }
    reflexivity.
  - eexists _, _. split; [exact Hembed|]. apply and_comm. split.
    { unfold extract. eapply in_frame_run with (l := tt).
      rewrite !bind_in_world, bind_effect, bind_in_world, bind_call_world.
      fold loaded tl0 tl1 w2 max_size'. rewrite Hembed. cbn [fst snd].
      rewrite !bind_in_world. unfold batch_of.
      rewrite bind_lift, set_took. cbn beta iota.
      erewrite bind_run; [|reflexivity].
      unfold lift. rewrite Hser. reflexivity. }
    reflexivity.
Qed.

(** C3, as amended. No exception that the model, the lazy sequence of
    faces or [serialize_face] raises escapes [embed], [embed_crops] or
    [extract]; each of them returns, and what it returns reports every
    failure.  In the batch of [embed], the result of an image has the
    status "failed" and the trace of its load failure or of the
    exception raised while it was processed, and the status "ok" and no
    trace when neither happened.  The dict of [embed_crops] has the
    status "failed", the trace of the exception and fewer entries than
    images when a step of its loop raised, and the status "ok" and one
    entry per image when none did.  [extract] returns the dict of
    [embed_crops] when [embed_only] is set, the batch of [embed] under
    timings for a version other than "1", and for version "1" only the
    lists of faces of the batch: there the statuses and the traces are
    not part of the response. *)
Theorem no_exception_escapes :
  (forall (images : list ImageInput) (max_size : option (list Z))
          (threshold : float) (limit_faces : Z)
          (return_face_data extract_embedding extract_ga return_landmarks : bool)
          (w : World),
      exists items w',
        embed images max_size threshold limit_faces return_face_data
              extract_embedding extract_ga return_landmarks w
        = (Ok (batch_of items), w') /\
        List.length items = List.length images /\
        forall i image_data,
          nth_error images i = Some image_data ->
          exists w_i r,
            embed (firstn i images) max_size threshold limit_faces return_face_data
                  extract_embedding extract_ga return_landmarks w
            = (Ok (batch_of (firstn i items)), w_i) /\
            nth_error items i = Some (VDict r) /\
            (exists faces, dict_get "faces" r = Some (VList faces)) /\
            (forall tb, img_traceback image_data = Some tb -> failed_with tb r) /\
            (forall e,
                processing_raises max_size threshold limit_faces return_face_data
                                  extract_embedding extract_ga return_landmarks
                                  image_data w_i e ->
                failed_with (format_exc e) r) /\
            (img_traceback image_data = None ->
             (forall e,
                 ~ processing_raises max_size threshold limit_faces return_face_data
                                     extract_embedding extract_ga return_landmarks
                                     image_data w_i e) ->
             ok_without_trace r)) /\
  (forall (images : list ImageInput) (extract_embedding extract_ga : bool)
          (w : World),
      let faces := process_faces (iterate_faces images) extract_embedding
                                 extract_ga false in
      exists out w' items t,
        embed_crops images extract_embedding extract_ga w = (Ok out, w') /\
        dict_get "took_ms" out = Some (VFloat t) /\
        dict_get "data" out = Some (VList items) /\
        Forall flat_entry items /\
        (forall e,
            crops_raises images faces (snd (time_time w)) e ->
            failed_with (format_exc e) out /\
            (List.length items < List.length images)%nat) /\
        ((forall e, ~ crops_raises images faces (snd (time_time w)) e) ->
         ok_without_trace out /\
         List.length items = List.length images)) /\
  (forall (self : Processing) (images : ImagesRequest)
          (max_size : option (list Z)) (threshold : float) (limit_faces : Z)
          (embed_only return_face_data extract_embedding extract_ga
           return_landmarks verbose_timings : bool) (api_ver : string)
          (w : World),
      let loaded := get_images images (snd (time_time (snd (time_time w)))) in
      let tl0 := fst (time_time (snd (time_time w))) in
      let tl1 := fst (time_time (snd loaded)) in
      let w2 := logging_debug_reading ((tl1 - tl0) * 1000)%float
                  (snd (time_time (snd loaded))) in
      let max_size' :=
        if not_max_size max_size then Some (self_max_size self) else max_size in
      if embed_only then
        exists out w',
          embed_crops (fst loaded) extract_embedding extract_ga w2 = (Ok out, w') /\
          extract self images max_size threshold limit_faces true return_face_data
                  extract_embedding extract_ga return_landmarks verbose_timings
                  api_ver w
          = (Ok (VDict out), w')
      else
        exists items w4 took t,
          embed (fst loaded) max_size' threshold limit_faces return_face_data
                extract_embedding extract_ga return_landmarks (snd (time_time w2))
          = (Ok (batch_of items), w4) /\
          dict_get "total_ms" took = Some (VFloat t) /\
          extract self images max_size threshold limit_faces false return_face_data
                  extract_embedding extract_ga return_landmarks verbose_timings
                  api_ver w
          = (Ok (if String.eqb api_ver "1"
                 then VList (map pi_faces items)
                 else VDict [("took", VDict took); ("data", VList items)]),
             snd (time_time (snd (time_time w4))))).
Proof.
  split; [|split].
  - intros images ms th lf rfd ee eg rl w.
    destruct (embed_aligned ms th lf rfd ee eg rl images w)
      as (items & w' & Hrun & Hal).
    exists items, w'. split; [exact Hrun|]. split; [exact (aligned_length Hal)|].
    intros i image_data Hi.
    destruct (nth_error_split _ _ Hi) as (l1 & l2 & -> & Hlen).
    destruct (aligned_split _ _ Hal) as (a & b & w_i & -> & Ha & Hb).
    inversion Hb as [|? ? ? w1 ? r rs Himg Hrest]; subst.
    pose proof (aligned_length Ha) as Hla.
    destruct (embed_image_outcome ms th lf rfd ee eg rl image_data w_i)
      as (r' & w1' & Himg' & Hfaces & Hload & Hraise & Hok).
    rewrite Himg in Himg'. injection Himg' as <- <-.
    exists w_i, r.
    rewrite (firstn_prefix l1), (firstn_prefix a) by congruence.
    split; [now apply aligned_embed|].
    split; [rewrite nth_error_app2, <- Hla, Nat.sub_diag by lia; reflexivity|].
    split; [exact Hfaces|]. split; [exact Hload|]. split; [exact Hraise | exact Hok].
  - intros images ee eg w faces.
    destruct (crops_loop_failure images [] faces (snd (time_time w)))
      as (r & new & g' & w1 & Hrun & Hflat & Hr).
    destruct r as [[]|e0]; destruct Hr as [Hlen Hrs].
    + eexists _, _, new, _. split.
      * unfold embed_crops. fold faces. eapply in_frame_run.
        rewrite bind_in_world. erewrite bind_run.
        2:{ erewrite try_except_run; [|exact Hrun]. reflexivity. }
        reflexivity.
      * split; [reflexivity|]. split; [reflexivity|]. split; [exact Hflat|].
        split; [intros e He; destruct (Hrs e He)|].
        intros _. split; [split; reflexivity | exact Hlen].
    + eexists _, _, new, _. split.
      * unfold embed_crops. fold faces. eapply in_frame_run.
        rewrite bind_in_world. erewrite bind_run.
        2:{ erewrite try_except_run; [|exact Hrun]. reflexivity. }
        reflexivity.
      * split; [reflexivity|]. split; [reflexivity|]. split; [exact Hflat|].
        split; [|intros Hno; destruct (Hno e0 Hrs)].
        intros e He. rewrite (crops_raises_functional He Hrs).
        split; [split; reflexivity | exact Hlen].
  - intros self images ms th lf embed_only rfd ee eg rl vt api_ver w
           loaded tl0 tl1 w2 max_size'.
    destruct embed_only.
    + destruct (embed_crops_returns (fst loaded) ee eg w2) as (out & w' & Hcrops & _).
      exists out, w'. split; [exact Hcrops|].
      eapply extract_embed_only. exact Hcrops.
    + apply extract_batch.
Qed.

End PropagationPolicy.

(** ** [Processing.draw] *)

Section DrawFacts.
Context {ext : External} {painter : Painter}.

Lemma index_nth {A : Type} (a : list A) (i : nat) (d : A) :
  (i < List.length a)%nat -> index a i = Ok (nth i a d).
Proof.
  intros Hi. unfold index.
  destruct (nth_error a i) eqn:E.
  - now rewrite (nth_error_nth _ _ d E).
  - apply nth_error_None in E. lia.
Qed.

Lemma landmark_row (lms : list (list Z)) (i : nat) :
  landmarks_complete lms = true -> In i [0; 1; 2; 3; 4]%nat ->
  exists row, index lms i = Ok row /\
              index row 0 = Ok (fst (lm_point lms i)) /\
              index row 1 = Ok (snd (lm_point lms i)).
Proof.
  intros Hc Hi. unfold landmarks_complete in Hc.
  rewrite forallb_forall in Hc. specialize (Hc i Hi).
  unfold index at 1, lm_point.
  destruct (nth_error lms i) as [row|] eqn:E; [|discriminate].
  exists row. split; [reflexivity|].
  rewrite (nth_error_nth _ _ [] E). apply Nat.leb_le in Hc.
  split; apply index_nth; lia.
Qed.

(** X21. On a drawable face, [draw_face] makes exactly the painting
    calls of [face_cmds], in that order: the box in the mask colour,
    then what the three flags ask for. *)
Theorem draw_face_paints
    (face : Face) (draw_landmarks draw_scores draw_sizes : bool)
    (s : option Image * World) :
  face_drawable face draw_landmarks draw_scores = true ->
  draw_face face draw_landmarks draw_scores draw_sizes s
  = paint_all (face_cmds face draw_landmarks draw_scores draw_sizes) s.
Proof.
  unfold face_drawable, draw_face, face_cmds, box_color.
  destruct (bbox face) as [b|]; [|discriminate].
  cbn [option_map attr_of]. rewrite bind_lift. cbv zeta.
  destruct (map astype_int b) as [|x [|y [|r [|bt rest]]]]; try discriminate.
  intros Hd. apply andb_prop in Hd as [Hlm Hsc].
  assert (Hcolor :
            (if truthy (mask_prob face)
             then match mask_prob face with
                  | Some m => if (0.2 <=? m)%float then YELLOW else GREEN
                  | None => GREEN
                  end
             else GREEN)
            = match mask_prob face with
              | Some m => if truthy (Some m) && (0.2 <=? m)%float then YELLOW else GREEN
              | None => GREEN
              end).
  { destruct (mask_prob face) as [m|]; [|reflexivity].
    destruct (truthy (Some m)); reflexivity. }
  cbn [slice firstn skipn Nat.sub unpack2].
  rewrite !bind_lift. cbn [fst snd].
  rewrite Hcolor. clear Hcolor.
  set (color := match mask_prob face with Some m => _ | None => _ end).
  destruct draw_landmarks.
  - destruct (landmark face) as [lm|]; [|discriminate].
    apply andb_prop in Hlm as [Hpt Hrows].
    destruct (py_int (float_of_Z (wrap64 (r - x)) * 0.05)%float) as [p|]; [|discriminate].
    destruct (@landmark_row _ 0%nat Hrows ltac:(cbn; tauto)) as (r0 & E0 & E0x & E0y).
    destruct (@landmark_row _ 1%nat Hrows ltac:(cbn; tauto)) as (r1 & E1 & E1x & E1y).
    destruct (@landmark_row _ 2%nat Hrows ltac:(cbn; tauto)) as (r2 & E2 & E2x & E2y).
    destruct (@landmark_row _ 3%nat Hrows ltac:(cbn; tauto)) as (r3 & E3 & E3x & E3y).
    destruct (@landmark_row _ 4%nat Hrows ltac:(cbn; tauto)) as (r4 & E4 & E4x & E4y).
    cbn [attr_of].
    destruct draw_scores, draw_sizes;
      try (destruct (det_score face); [|discriminate]);
      cbn [format_score app]; unfold paint_all, GREEN, BLACK; cbn [for_each];
      unfold draw_landmark, paint_cmd, bind, lift, get_locals, set_locals, ret;
      cbn [fst snd];
      rewrite E0, E0x, E0y, E1, E1x, E1y, E2, E2x, E2y, E3, E3x, E3y, E4, E4x, E4y;
      rewrite <- !surjective_pairing;
      repeat match goal with
             | |- context [paint ?c ?i] =>
                 destruct (paint c i); cbn [fst snd]; try reflexivity
             end.
  - destruct draw_scores, draw_sizes;
      try (destruct (det_score face); [|discriminate]);
      cbn [format_score app]; unfold paint_all, GREEN, BLACK; cbn [for_each];
      unfold paint_cmd, bind, lift, get_locals, set_locals, ret;
      cbn [fst snd];
      repeat match goal with
             | |- context [paint ?c ?i] =>
                 destruct (paint c i); cbn [fst snd]; try reflexivity
             end.
Qed.

Lemma bind_get_locals {L B : Type} (k : L -> M (L * World) B) (l : L) (w : World) :
  bind get_locals k (l, w) = k l (l, w).
Proof. reflexivity. Qed.

Lemma bind_not_ok_l {St A B : Type} (m : M St A) (k : A -> M St B) (s : St) :
  is_ok (fst (m s)) = false -> is_ok (fst (bind m k s)) = false.
Proof.
  unfold bind. destruct (m s) as [[a|e] s']; [discriminate | reflexivity].
Qed.

Lemma bind_not_ok_r {St A B : Type} (m : M St A) (k : A -> M St B) (s : St) :
  (forall a s', is_ok (fst (k a s')) = false) -> is_ok (fst (bind m k s)) = false.
Proof.
  intros Hk. unfold bind. destruct (m s) as [[a|e] s']; [apply Hk | reflexivity].
Qed.

Lemma draw_landmark_not_ok (lms : list (list Z)) (i : nat) (color : Color)
    (pt_size : Z) (s : option Image * World) :
  match nth_error lms i with
  | Some row => (2 <=? List.length row)%nat
  | None => false
  end = false ->
  is_ok (fst (draw_landmark lms i color pt_size s)) = false.
Proof.
  intros Hrow. unfold draw_landmark, index.
  destruct (nth_error lms i) as [row|]; [|reflexivity].
  rewrite bind_lift. apply Nat.leb_gt in Hrow.
  destruct row as [|cx [|cy row]]; cbn in Hrow; try lia; reflexivity.
Qed.

(** X22. On a face that is not drawable, [draw_face] raises, whatever
    the image: a face without a box or with fewer than four
    coordinates, missing or short landmarks when landmarks are drawn, a
    missing score when scores are drawn. *)
Theorem draw_face_needs_drawable
    (face : Face) (draw_landmarks draw_scores draw_sizes : bool)
    (s : option Image * World) :
  face_drawable face draw_landmarks draw_scores = false ->
  is_ok (fst (draw_face face draw_landmarks draw_scores draw_sizes s)) = false.
Proof.
  unfold face_drawable, draw_face.
  destruct (bbox face) as [b|]; [|reflexivity].
  cbn [attr_of]. rewrite bind_lift. cbv zeta.
  destruct (map astype_int b) as [|x [|y [|r [|bt rest]]]]; try reflexivity.
  cbn [slice firstn skipn Nat.sub unpack2]. rewrite !bind_lift. cbn [fst snd].
  intros Hd. apply bind_not_ok_r. intros _ s1.
  apply andb_false_iff in Hd as [Hlm | Hsc].
  - apply bind_not_ok_l.
    destruct draw_landmarks; [|discriminate].
    destruct (landmark face) as [lm|]; [|reflexivity].
    cbn [attr_of]. rewrite bind_lift.
    destruct (py_int (float_of_Z (wrap64 (r - x)) * 0.05)%float) as [p|];
      [|reflexivity].
    rewrite bind_lift. cbn [is_ok andb] in Hlm.
    unfold landmarks_complete in Hlm. cbn [forallb] in Hlm.
    do 4 (apply andb_false_iff in Hlm as [Hrow | Hlm];
          [apply bind_not_ok_l; now apply draw_landmark_not_ok|];
          apply bind_not_ok_r; intros _ ?).
    apply andb_false_iff in Hlm as [Hrow | Hlm];
      [now apply draw_landmark_not_ok | discriminate].
  - apply bind_not_ok_r. intros _ s2. apply bind_not_ok_l.
    destruct draw_scores; [|discriminate].
    destruct (det_score face); [discriminate | reflexivity].
Qed.

(** The loop of [draw] over drawable faces makes the painting calls of
    the faces one face after the other. *)
Lemma draw_faces_paint (faces : list Face)
    (draw_landmarks draw_scores draw_sizes : bool) (s : option Image * World) :
  forallb (fun f => face_drawable f draw_landmarks draw_scores) faces = true ->
  for_each faces (fun face => draw_face face draw_landmarks draw_scores draw_sizes) s
  = paint_all
      (flat_map (fun f => face_cmds f draw_landmarks draw_scores draw_sizes) faces) s.
Proof.
  revert s. induction faces as [|face rest IH]; intros s Hall; [reflexivity|].
  cbn [forallb] in Hall. apply andb_prop in Hall as [Hface Hrest].
  cbn [for_each flat_map]. unfold paint_all. rewrite for_each_app.
  unfold bind. rewrite (@draw_face_paints face draw_landmarks draw_scores draw_sizes s Hface). unfold paint_all.
  destruct (for_each (face_cmds face _ _ _) paint_cmd s) as [[[]|e] s1]; [|reflexivity].
  apply IH. exact Hrest.
Qed.

(** The first statements of [draw] leave [loaded_image] in the frame. *)
Lemma draw_load (images : DrawInput) (w : World) :
  match images with
  | FromRequest request =>
      images <- in_world (get_images request) ;;
      first <- lift (index images 0) ;;
      set_locals (img_data first)
  | FromMultipart buf =>
      image <- lift (imdecode buf) ;;
      set_locals image
  end (None, w)
  = match fst (loaded_image images w) with
    | Ok image => (Ok tt, (image, snd (loaded_image images w)))
    | Raise e => (Raise e, (None, snd (loaded_image images w)))
    end.
Proof.
  destruct images as [request|buf]; cbn [loaded_image fst snd].
  - rewrite bind_in_world, bind_lift.
    destruct (index (fst (get_images request w)) 0); reflexivity.
  - rewrite bind_lift. destruct (imdecode buf); reflexivity.
Qed.

(** X23. [draw] has no handler, and it does not test the image before
    it hands it to the model.  An exception of its first statements
    leaves [draw] before the model is called: [IndexError] when
    [get_images] returns an empty list, or what [imdecode] raises.
    Bytes that decode to [None], and a first item that carries no data,
    leave [None] in [image], and the model is called with it.  An
    exception of the model leaves [draw]; and when the model returns no
    face for an image that is [None], [draw] raises [AttributeError] at
    [image.shape], after the model call. *)
Theorem draw_propagates
    (det_name : string) (images : DrawInput) (threshold : float)
    (draw_landmarks draw_scores draw_sizes : bool) (limit_faces : Z)
    (w : World) :
  (forall e w1, loaded_image images w = (Raise e, w1) ->
     draw det_name images threshold draw_landmarks draw_scores draw_sizes
          limit_faces w = (Raise e, w1)) /\
  (forall request,
     images = FromRequest request -> fst (get_images request w) = [] ->
     draw det_name images threshold draw_landmarks draw_scores draw_sizes
          limit_faces w
     = (Raise (IndexError "index out of range"), snd (get_images request w))) /\
  (forall buf e,
     images = FromMultipart buf -> imdecode buf = Raise e ->
     draw det_name images threshold draw_landmarks draw_scores draw_sizes
          limit_faces w = (Raise e, w)) /\
  (forall buf,
     images = FromMultipart buf -> imdecode buf = Ok None ->
     loaded_image images w = (Ok None, w)) /\
  (forall request first rest,
     images = FromRequest request ->
     fst (get_images request w) = first :: rest -> img_data first = None ->
     loaded_image images w = (Ok None, snd (get_images request w))) /\
  (forall image w1 e w2,
     loaded_image images w = (Ok image, w1) ->
     model_get image (mkGetOpts None threshold false false false limit_faces) w1
     = (Raise e, w2) ->
     draw det_name images threshold draw_landmarks draw_scores draw_sizes
          limit_faces w = (Raise e, w2)) /\
  (forall w1 w2,
     loaded_image images w = (Ok None, w1) ->
     model_get None (mkGetOpts None threshold false false false limit_faces) w1
     = (Ok [], w2) ->
     draw det_name images threshold draw_landmarks draw_scores draw_sizes
          limit_faces w
     = (Raise (AttributeError "'NoneType' object has no attribute 'shape'"), w2)).
Proof.
  assert (Hload : forall e' w1, loaded_image images w = (Raise e', w1) ->
            draw det_name images threshold draw_landmarks draw_scores draw_sizes
                 limit_faces w = (Raise e', w1)).
  { intros e' w1 Hl. unfold draw. eapply in_frame_run.
    erewrite bind_run; [|rewrite draw_load, Hl; reflexivity]. reflexivity. }
  split; [exact Hload|]. split; [|split; [|split; [|split; [|split]]]].
  - intros request -> Hempty. apply Hload.
    cbn [loaded_image]. rewrite Hempty. reflexivity.
  - intros buf e -> Hdec. apply Hload. cbn [loaded_image]. now rewrite Hdec.
  - intros buf -> Hdec. cbn [loaded_image]. now rewrite Hdec.
  - intros request first rest -> Hfirst Hdata. cbn [loaded_image].
    rewrite Hfirst. cbn. now rewrite Hdata.
  - intros image w1 e w2 Hl Hm. unfold draw. eapply in_frame_run.
    erewrite bind_run; [|rewrite draw_load, Hl; reflexivity].
    cbn [fst snd]. rewrite bind_get_locals, bind_call_world, Hm. reflexivity.
  - intros w1 w2 Hl Hm. unfold draw. eapply in_frame_run.
    erewrite bind_run; [|rewrite draw_load, Hl; reflexivity].
    cbn [fst snd]. rewrite bind_get_locals, bind_call_world, Hm. cbn [fst snd for_each].
    reflexivity.
Qed.

(** X24. When the image loads, the model returns drawable faces and the
    painting calls go through, [draw] returns the JPEG of the image
    after the calls of the faces, in the order the model gave the faces,
    and two last calls: the line that counts the faces and names the
    detector, at the bottom left, in black then in green. *)
Theorem draw_paints
    (det_name : string) (images : DrawInput) (threshold : float)
    (draw_landmarks draw_scores draw_sizes : bool) (limit_faces : Z)
    (w w1 w2 : World) (image : option Image) (faces : list Face)
    (painted : Image) (height : nat) :
  loaded_image images w = (Ok image, w1) ->
  model_get image (mkGetOpts None threshold false false false limit_faces) w1
  = (Ok faces, w2) ->
  forallb (fun f => face_drawable f draw_landmarks draw_scores) faces = true ->
  paint_all (flat_map (fun f => face_cmds f draw_landmarks draw_scores draw_sizes) faces)
            (image, w2)
  = (Ok tt, (Some painted, w2)) ->
  nth_error (shape painted) 0 = Some height ->
  let total :=
    ("faces: " ++ string_of_nat (List.length faces) ++ " (" ++ det_name ++ ")")%string in
  draw det_name images threshold draw_landmarks draw_scores draw_sizes limit_faces w
  = (let? i1 := paint (CvPutText total (5, Z.of_nat height - 5)%Z 0 1 (0, 0, 0)%Z 3 16)
                      (Some painted) in
     let? i2 := paint (CvPutText total (5, Z.of_nat height - 5)%Z 0 1 (0, 255, 0)%Z 1 16)
                      i1 in
     imencode_jpg i2,
     w2).
Proof.
  intros Hl Hm Hall Hpaint Hh total. unfold draw.
  match goal with
  | |- in_frame ?init ?m ?w0 = (?r, ?w') =>
      assert (Hbody : exists l, m (init, w0) = (r, (l, w')))
  end.
  { erewrite bind_run; [|rewrite draw_load, Hl; reflexivity].
    cbn [fst snd]. rewrite bind_get_locals, bind_call_world, Hm. cbn [fst snd].
    erewrite bind_run;
      [|rewrite (@draw_faces_paint faces draw_landmarks draw_scores draw_sizes _ Hall);
        exact Hpaint].
    cbv zeta. rewrite bind_get_locals.
    cbn [attr_of]. rewrite bind_lift.
    unfold index. rewrite Hh. rewrite bind_lift. fold total.
    unfold paint_cmd, bind, lift, get_locals, set_locals. cbn [fst snd].
    destruct (paint _ (Some painted)) as [i1|e1]; cbn [rbind fst snd];
      [|eexists; reflexivity].
    destruct (paint _ i1) as [i2|e2]; cbn [rbind fst snd]; eexists; reflexivity. }
  destruct Hbody as (l & Hbody). eapply in_frame_run. exact Hbody.
Qed.

End DrawFacts.

(* ================================================================== *)
(** * Runs on the sample collaborators *)

Import Sample.

(** C4 on a concrete face: an analyzed crop, both flags set. *)
Lemma serialize_face_without_score_witness :
  is_ok (serialize_face Sample.crop_face true true) = true /\
  forall d, serialize_face Sample.crop_face true true = Ok d -> detection_fields_null d.
Proof.
  exact (serialize_face_without_score Sample.crop_face true true eq_refl).
Defined.

(** C9 on a concrete face: score, norm and mask probability are zero, a
    box and landmarks exist, and landmarks are requested. *)
Lemma serialize_face_tests_truth_value_witness :
  exists d,
    serialize_face Sample.zero_face false true = Ok d /\
    option_map items (bbox Sample.zero_face) = Some [10; 10; 50; 60]%float /\
    detection_fields_null d /\
    (dict_get "vec" d = Some VNone /\ dict_get "norm" d = Some VNone) /\
    dict_get "mask_prob" d = Some VNone.
Proof.
  eexists. split; [reflexivity|]. split; [reflexivity|].
  destruct (serialize_face_tests_truth_value Sample.zero_face false true eq_refl)
    as (Hdet & Hvec & Hmask).
  split; [|split].
  - exact (Hdet _ eq_refl eq_refl).
  - exact (Hvec _ eq_refl eq_refl).
  - exact (Hmask _ eq_refl eq_refl).
Defined.

(** C7 as stated fails: this face carries a detection score and the box
    [10, 10, 50, 60], and its record has a null [size], not 40. *)
Lemma serialize_face_size_zero_score :
  det_score Sample.zero_face = Some 0%float /\
  option_map items (bbox Sample.zero_face) = Some [10; 10; 50; 60]%float /\
  exists d,
    serialize_face Sample.zero_face false false = Ok d /\
    dict_get "size" d = Some VNone /\
    dict_get "size" d <> Some (VInt 40).
Proof.
  split; [reflexivity|]. split; [reflexivity|].
  eexists. split; [reflexivity|]. split; [reflexivity|]. discriminate.
Qed.

(** C7 as amended, on the face of scenario A: the box [10, 10, 50, 60]
    gives [size] 40. *)
Lemma serialize_face_size_witness :
  exists d,
    serialize_face Sample.detected_face false false = Ok d /\
    dict_get "size" d = Some (VInt 40) /\
    dict_get "bbox" d = Some (VList [VInt 10; VInt 10; VInt 50; VInt 60]).
Proof.
  eexists. split; [reflexivity|].
  destruct (serialize_face_size Sample.detected_face false false eq_refl eq_refl)
    as (s & b & l & r & z & Hs & Hb & Hl & Hr & Hz & Hsize & _ & Hbox & _).
  cbn in Hb. injection Hb as <-. vm_compute in Hl, Hr.
  injection Hl as <-. injection Hr as <-.
  vm_compute in Hz. injection Hz as <-.
  split; [exact Hsize | exact Hbox].
Defined.

(** The width is truncated, not rounded to nearest: 51.2 - 10.5 gives 40. *)
Example serialize_face_size_truncates :
  exists d, serialize_face Sample.fractional_face false false = Ok d /\
            dict_get "size" d = Some (VInt 40).
Proof. eexists. split; vm_compute; reflexivity. Qed.

(** The dtype of the box decides: the corners 0.1 and 40.1 of a
    single-precision box are 40 apart once their difference is rounded
    to single precision, and [size] is 40; the same numbers in a
    double-precision box are a little less than 40 apart, and [size] is
    39. *)
Example serialize_face_size_by_dtype :
  (exists d, serialize_face (offset_face Float32) false false = Ok d /\
             dict_get "size" d = Some (VInt 40)) /\
  (exists d, serialize_face (offset_face Float64) false false = Ok d /\
             dict_get "size" d = Some (VInt 39)).
Proof. split; eexists; split; vm_compute; reflexivity. Qed.

(** C5 on [sample_batch]. *)
Lemma serialize_round_trip_witness :
  Serializer.serialize sample_batch "2" = Ok sample_batch /\
  Serializer.serialize sample_batch "1"
    = Ok (VList [VList [VDict [("det", VInt 0); ("size", VInt 40)]]; VList []]).
Proof.
  destruct (serialize_round_trip sample_batch eq_refl) as (H2 & resp & H1 & -> & _).
  split; [exact H2 | exact H1].
Defined.

(** C6 on the version string "3". *)
Lemma serialize_unknown_version_witness :
  Serializer.serialize sample_batch "3" = Serializer.serialize sample_batch "2".
Proof.
  apply serialize_unknown_version. discriminate.
Defined.

(** Scenario A: one image with one detected face, one image that failed
    to load. *)
Example embed_scenario_A :
  exists face_record took_ms w',
    embed [loaded good_image; not_loaded "boom"] None 0.6%float 0%Z
          false true true false w0
    = (Ok (batch_of [VDict (per_image "ok" took_ms [VDict face_record]);
                     VDict (load_failure "boom")]), w') /\
    dict_get "size" face_record = Some (VInt 40).
Proof. do 3 eexists. split; vm_compute; reflexivity. Qed.

(** C2 on a batch of four: the model raises on the second image; the
    first, the third (which failed to load) and the fourth keep the
    results they have on their own. *)
Lemma embed_isolates_failure_witness :
  exists items_before w1 r w2 items_after w3,
    embed [loaded good_image] None 0.6%float 0%Z false true true false w0
    = (Ok (batch_of items_before), w1) /\
    embed_image (loaded bad_image) None 0.6%float 0%Z false true true false w1
    = (Ok r, w2) /\
    dict_get "status" r = Some (VStr "failed") /\
    dict_get "traceback" r
    = Some (VStr (format_exc (RuntimeError "cannot process image"))) /\
    embed [not_loaded "boom"; loaded good_image] None 0.6%float 0%Z
          false true true false w2
    = (Ok (batch_of items_after), w3) /\
    embed [loaded good_image; loaded bad_image; not_loaded "boom"; loaded good_image]
          None 0.6%float 0%Z false true true false w0
    = (Ok (batch_of (items_before ++ VDict r :: items_after)), w3).
Proof.
  eexists _, _.
  assert (Hbefore : embed [loaded good_image] None 0.6%float 0%Z
                          false true true false w0 = (Ok (batch_of _), _))
    by (vm_compute; reflexivity).
  destruct (@embed_isolates_failure ext None 0.6%float 0%Z false true true false
              [loaded good_image] [not_loaded "boom"; loaded good_image]
              (loaded bad_image) w0 _ _
              (RuntimeError "cannot process image") Hbefore)
    as (r & w2 & items_after & w3 & H).
  - apply raises_in_model_call; reflexivity.
  - exists r, w2, items_after, w3. split; [exact Hbefore | exact H].
Defined.

(** A failure while a record is built: face data is requested and the
    detected face carries none, so the codec raises. *)
Example embed_record_building_failure :
  processing_raises None 0.6%float 0%Z true true true false
                    (loaded good_image) w0 (Cv2Error "imencode: empty image") /\
  exists took_ms w',
    embed [loaded good_image] None 0.6%float 0%Z true true true false w0
    = (Ok (batch_of
             [VDict (per_image "failed" took_ms []
                     ++ [("traceback",
                          VStr (format_exc (Cv2Error "imencode: empty image")))])]),
       w').
Proof.
  split.
  - eapply raises_in_record_building with (built := []) (rest := []);
      [reflexivity | reflexivity | reflexivity | constructor | reflexivity].
  - do 2 eexists. vm_compute. reflexivity.
Qed.

(** C8 on four crops: the second failed to load, the model raises on the
    third, the fourth is never analyzed. *)
Lemma embed_crops_aborts_on_failure_witness :
  exists out items,
    embed_crops [loaded good_image; not_loaded "boom"; loaded bad_image; loaded good_image]
                true true w0
    = (Ok out,
       snd (time_time
              (print (format_exc (RuntimeError "cannot process crop"))
                     (mkSWorld 101%float [] [] 2)))) /\
    dict_get "status" out = Some (VStr "failed") /\
    dict_get "traceback" out
    = Some (VStr (format_exc (RuntimeError "cannot process crop"))) /\
    dict_get "data" out = Some (VList items) /\
    List.length items = 2%nat.
Proof.
  destruct (@embed_crops_aborts_on_failure ext
              [loaded good_image; not_loaded "boom"] [loaded good_image]
              (loaded bad_image) true true w0
              (mkSWorld 101%float [] [] 1)
              (mkSWorld 101%float [] [] 2)
              (mkCropsLocals
                       (crops_output
                          [VDict [("det", VNone); ("prob", VNone); ("bbox", VNone);
                                  ("size", VNone); ("landmarks", VNone);
                                  ("gender", VInt 0); ("age", VInt 41);
                                  ("mask_prob", VNone); ("norm", VFloat 5);
                                  ("vec", VList [VFloat 0.6; VFloat 0.8])];
                           VDict [("status", VStr "failed");
                                  ("traceback", VStr "boom")]])
                       ([Face_of_facedata (Some bad_image);
                         Face_of_facedata (Some good_image)] : @Generator ext))
              ([Face_of_facedata (Some good_image)] : @Generator ext)
              (RuntimeError "cannot process crop"))
    as (out & items & Hrun & Hst & Htb & Hdata & _ & Hlen).
  - vm_compute. reflexivity.
  - reflexivity.
  - left. vm_compute. reflexivity.
  - exists out, items. repeat split; assumption.
Defined.

(** Scenario B: three crops, all analyzed: a flat list of three records
    without [prob] and with [vec] and [norm]. *)
Example embed_crops_scenario_B :
  exists r took_ms w',
    embed_crops [loaded good_image; loaded good_image; loaded good_image] true true w0
    = (Ok [("took_ms", VFloat took_ms); ("data", VList [VDict r; VDict r; VDict r]);
           ("status", VStr "ok")], w') /\
    dict_get "prob" r = Some VNone /\
    dict_get "norm" r = Some (VFloat 5) /\
    dict_get "vec" r = Some (VList [VFloat 0.6; VFloat 0.8]).
Proof. do 3 eexists. repeat split; vm_compute; reflexivity. Qed.

(** [extract] on a request of two images, the second of which cannot be
    decoded: version "1" returns the two lists of faces, and with
    [embed_only] set the same flat dict comes back for both versions. *)
Example extract_sample_v1 :
  exists face_record w',
    extract (mkProcessing [640; 480]%Z) (mkImagesRequest None (Some ["a"; ""]))
            None 0.6%float 0%Z false false true true false true "1" w0
    = (Ok (VList [VList [VDict face_record]; VList []]), w').
Proof. do 2 eexists. vm_compute. reflexivity. Qed.

Example extract_sample_embed_only :
  exists took_ms r tb w',
    extract (mkProcessing [640; 480]%Z) (mkImagesRequest None (Some ["a"; ""]))
            None 0.6%float 0%Z true false true true false true "1" w0
    = (Ok (VDict [("took_ms", VFloat took_ms);
                  ("data", VList [VDict r;
                                  VDict [("status", VStr "failed"); ("traceback", VStr tb)]]);
                  ("status", VStr "ok")]), w') /\
    extract (mkProcessing [640; 480]%Z) (mkImagesRequest None (Some ["a"; ""]))
            None 0.6%float 0%Z true false true true false false "2" w0
    = extract (mkProcessing [640; 480]%Z) (mkImagesRequest None (Some ["a"; ""]))
              None 0.6%float 0%Z true false true true false true "1" w0.
Proof. do 4 eexists. split; vm_compute; reflexivity. Qed.

(** C3 as stated fails for [extract] with version "1": the second image
    of this request cannot be decoded, and the response holds an empty
    list for it, with no status and no trace: what version "1" makes of
    the result of an image in which no face was found. *)
Lemma extract_v1_drops_status :
  fst (get_images (mkImagesRequest None (Some ["a"; ""])) w0)
  = [loaded good_image; not_loaded "Traceback: cannot decode"] /\
  (exists face_record,
     fst (extract (mkProcessing [640; 480]%Z) (mkImagesRequest None (Some ["a"; ""]))
                  None 0.6%float 0%Z false false true true false true "1" w0)
     = Ok (VList [VList [VDict face_record]; VList []])) /\
  pi_faces (VDict (load_failure "Traceback: cannot decode")) = VList [] /\
  pi_faces (VDict (per_image "ok" 1000 [])) = VList [].
Proof.
  split; [reflexivity|]. split; [eexists; vm_compute; reflexivity|].
  split; reflexivity.
Qed.

(** C3 as amended, on a batch of three: the model raises on the second
    image and the third failed to load; and on two crops, the second of
    which the model cannot analyze. *)
Lemma no_exception_escapes_witness :
  (exists items w' r1 r2,
     embed [loaded good_image; loaded bad_image; not_loaded "boom"]
           None 0.6%float 0%Z false true true false w0
     = (Ok (batch_of items), w') /\
     nth_error items 1 = Some (VDict r1) /\
     failed_with (format_exc (RuntimeError "cannot process image")) r1 /\
     nth_error items 2 = Some (VDict r2) /\
     failed_with "boom" r2) /\
  (exists out w',
     embed_crops [loaded good_image; loaded bad_image] true true w0 = (Ok out, w') /\
     failed_with (format_exc (RuntimeError "cannot process crop")) out).
Proof.
  destruct (@no_exception_escapes ext) as (Hembed & Hcrops & _).
  split.
  - destruct (Hembed [loaded good_image; loaded bad_image; not_loaded "boom"]
                     None 0.6%float 0%Z false true true false w0)
      as (items & w' & Hrun & _ & Hpos).
    destruct (Hpos 1%nat (loaded bad_image) eq_refl)
      as (w1 & r1 & Hw1 & Hr1 & _ & _ & Hraise & _).
    destruct (Hpos 2%nat (not_loaded "boom") eq_refl)
      as (w2 & r2 & _ & Hr2 & _ & Hload & _).
    exists items, w', r1, r2.
    split; [exact Hrun|]. split; [exact Hr1|]. split.
    + apply Hraise. apply raises_in_model_call; reflexivity.
    + split; [exact Hr2|]. apply Hload. reflexivity.
  - destruct (Hcrops [loaded good_image; loaded bad_image] true true w0)
      as (out & w' & items & t & Hrun & _ & _ & _ & Hraise & _).
    exists out, w'. split; [exact Hrun|].
    apply Hraise.
    eapply raises_after_record; [reflexivity | reflexivity | reflexivity |].
    eapply raises_in_next; reflexivity.
Defined.

(** X1 on a dict that has only timings. *)
Lemma serializer_v1_without_data_witness :
  Serializer.serialize (VDict [("took", VDict [])]) "1" = Ok (VList []).
Proof.
  apply serializer_v1_without_data. reflexivity.
Defined.

(** X2 on two items, the second of which has no [faces]. *)
Lemma serializer_v1_on_dicts_witness :
  exists resp,
    Serializer.serialize
      (VDict [("data", VList [VDict [("faces", VList [VInt 1])];
                              VDict [("status", VStr "failed")]])]) "1"
    = Ok (VList resp) /\
    List.length resp = 2%nat /\
    nth_error resp 1 = Some VNone.
Proof.
  destruct (@serializer_v1_on_dicts
              [("data", VList [VDict [("faces", VList [VInt 1])];
                               VDict [("status", VStr "failed")]])]
              [VDict [("faces", VList [VInt 1])]; VDict [("status", VStr "failed")]]
              eq_refl eq_refl)
    as (resp & Hrun & Hlen & Hnth).
  exists resp. split; [exact Hrun|]. split; [exact Hlen|].
  destruct (Hnth 1%nat _ eq_refl) as (di & Hdi & Hresp).
  injection Hdi as <-. exact Hresp.
Defined.

(** X4 on the face of scenario A, with face data not asked for. *)
Lemma serialize_face_keys_witness :
  exists d,
    serialize_face detected_face false true = Ok d /\
    map fst d = record_keys /\
    dict_get "facedata" d = None.
Proof.
  eexists. split; [reflexivity|].
  destruct (@serialize_face_keys codec detected_face false true _ eq_refl) as [Hk Hf].
  split; [|exact (Hf eq_refl)].
  rewrite Hk. reflexivity.
Defined.

(** X5 on an analyzed crop, with face data asked for. *)
Lemma serialize_face_verbatim_witness :
  exists d,
    serialize_face crop_face true false = Ok d /\
    dict_get "age" d = Some (VInt 41) /\
    dict_get "facedata" d
    = Some (VStr (b64encode [Byte.x10; Byte.x20; Byte.x30])).
Proof.
  eexists. split; [reflexivity|].
  destruct (@serialize_face_verbatim codec crop_face true false _ eq_refl)
    as (_ & _ & Hage & Hdata).
  split; [exact Hage|].
  destruct (Hdata eq_refl) as (buf & Hbuf & Hd).
  vm_compute in Hbuf. injection Hbuf as <-. exact Hd.
Defined.

(** X6 on the face of scenario A with face data asked for: the face has
    landmarks but no crop, so the record is not built. *)
Example serialize_face_returns_iff_sample :
  is_ok (serialize_face detected_face true true) = false /\
  is_ok (serialize_face detected_face false true) = true.
Proof. split; vm_compute; reflexivity. Qed.

(** X8 on an analyzed crop. *)
Lemma serialize_face_embedding_and_mask_witness :
  exists d,
    serialize_face crop_face false false = Ok d /\
    dict_get "norm" d = Some (VFloat 5) /\
    dict_get "mask_prob" d = Some VNone.
Proof.
  eexists. split; [reflexivity|].
  destruct (@serialize_face_embedding_and_mask codec crop_face false false _ eq_refl)
    as [Hemb Hmask].
  vm_compute in Hemb, Hmask.
  destruct Hemb as (ne & n & _ & Hn & _ & Hnorm).
  injection Hn as <-. split; [exact Hnorm | exact Hmask].
Defined.

(** X10 on two images that failed to load. *)
Lemma embed_all_load_failures_witness :
  embed [not_loaded "a"; not_loaded "b"] None 0.6%float 0%Z false true true false w0
  = (Ok (batch_of [VDict (load_failure "a"); VDict (load_failure "b")]),
     mkSWorld 102%float [] [] 0).
Proof.
  apply (@embed_all_load_failures ext None 0.6%float 0%Z false true true false
           [not_loaded "a"; not_loaded "b"] ["a"; "b"] w0).
  repeat constructor.
Defined.

(** X11 on a loaded image: one face, one record. *)
Lemma embed_image_ok_witness :
  exists r,
    serialize_face detected_face false true = Ok r /\
    embed_image (loaded good_image) None 0.6%float 0%Z false true true true w0
    = (Ok (per_image "ok" 1000 [VDict r]), mkSWorld 102%float [] [] 1).
Proof.
  eexists. split; [reflexivity|].
  apply (@embed_image_ok ext None 0.6%float 0%Z false true true true
           (loaded good_image) [detected_face] [_] w0 (mkSWorld 101%float [] [] 1)).
  - reflexivity.
  - reflexivity.
  - repeat constructor.
Defined.

(** X12 on the model that finds two faces, with face data asked for:
    the first face serializes, the second has no crop to encode. *)
Lemma embed_image_partial_faces_witness :
  exists r,
    serialize_face crop_face true false = Ok r /\
    @embed_image SampleTwoFaces.ext (loaded good_image) None 0.6%float 0%Z
                 true true true false w0
    = (Ok (per_image "failed" 0 [VDict r]
           ++ [("traceback",
                VStr (s_format_exc (Cv2Error "imencode: empty image")))]),
       mkSWorld 101%float
         ["Traceback (most recent call last): cv2.error: imencode: empty image"]
         [] 1).
Proof.
  eexists. split; [reflexivity|].
  apply (@embed_image_partial_faces SampleTwoFaces.ext None 0.6%float 0%Z
           true true true false
           (loaded good_image) [crop_face] [] detected_face [_] w0
           (mkSWorld 101%float [] [] 1)
           (Cv2Error "imencode: empty image")).
  - reflexivity.
  - reflexivity.
  - repeat constructor.
  - reflexivity.
Defined.

(** X13 on the image the sample model raises on. *)
Lemma embed_image_model_failure_witness :
  embed_image (loaded bad_image) None 0.6%float 0%Z false true true false w0
  = (Ok (per_image "failed" 0 []
         ++ [("traceback", VStr (format_exc (RuntimeError "cannot process image")))]),
     mkSWorld 101%float
       ["Traceback (most recent call last): RuntimeError: cannot process image"]
       [] 1).
Proof.
  apply (@embed_image_model_failure ext None 0.6%float 0%Z false true true false
           (loaded bad_image) w0 (mkSWorld 101%float [] [] 1)
           (RuntimeError "cannot process image")).
  - reflexivity.
  - reflexivity.
Defined.

(** X15 on a request of two images, for version "2" with verbose
    timings. *)
Lemma extract_v2_envelope_witness :
  exists items w',
    extract (mkProcessing [640; 480]%Z) (mkImagesRequest None (Some ["a"; ""]))
            None 0.6%float 0%Z false false true true false true "2" w0
    = (Ok (VDict [("took", VDict [("total_ms", VFloat 8000);
                                  ("read_imgs_ms", VFloat 1000);
                                  ("embed_all_ms", VFloat 4000)]);
                  ("data", VList items)]), w').
Proof.
  destruct (@extract_v2_envelope ext (mkProcessing [640; 480]%Z)
              (mkImagesRequest None (Some ["a"; ""]))
              None 0.6%float 0%Z false true true false true "2" w0)
    as (items & w4 & Hembed & Hrun).
  - discriminate.
  - vm_compute in Hembed. injection Hembed as <- <-.
    do 2 eexists. etransitivity; [exact Hrun|]. vm_compute. reflexivity.
Defined.


(** X18 on three crops, the second of which failed to load. *)
Lemma embed_crops_aligned_witness :
  exists r took_ms w',
    embed_crops [loaded good_image; not_loaded "boom"; loaded good_image] true true w0
    = (Ok [("took_ms", VFloat took_ms);
           ("data", VList [VDict r; VDict (crop_failure "boom"); VDict r]);
           ("status", VStr "ok")], w') /\
    dict_get "norm" r = Some (VFloat 5).
Proof.
  destruct (@embed_crops_aligned ext
              [loaded good_image; not_loaded "boom"; loaded good_image] true true
              [crop_face; crop_face]
              [[("det", VNone); ("prob", VNone); ("bbox", VNone); ("size", VNone);
                ("landmarks", VNone); ("gender", VInt 0); ("age", VInt 41);
                ("mask_prob", VNone); ("norm", VFloat 5);
                ("vec", VList [VFloat 0.6; VFloat 0.8])];
               [("det", VNone); ("prob", VNone); ("bbox", VNone); ("size", VNone);
                ("landmarks", VNone); ("gender", VInt 0); ("age", VInt 41);
                ("mask_prob", VNone); ("norm", VFloat 5);
                ("vec", VList [VFloat 0.6; VFloat 0.8])]]
              ([] : @Generator ext) w0 (mkSWorld 101%float [] [] 2))
    as (Hrun & _).
  - eapply yields_cons; [vm_compute; reflexivity|].
    eapply yields_cons; [vm_compute; reflexivity|]. apply yields_nil.
  - reflexivity.
  - repeat constructor.
  - do 3 eexists. split; [exact Hrun | reflexivity].
Defined.

(** X19 on two crops that failed to load. *)
Lemma embed_crops_all_load_failures_witness :
  embed_crops [not_loaded "a"; not_loaded "b"] true true w0
  = (Ok [("took_ms", VFloat 1000);
         ("data", VList [VDict (crop_failure "a"); VDict (crop_failure "b")]);
         ("status", VStr "ok")],
     mkSWorld 102%float [] [] 0).
Proof.
  apply (@embed_crops_all_load_failures ext [not_loaded "a"; not_loaded "b"]
           ["a"; "b"] true true w0).
  repeat constructor.
Defined.

Import SamplePainter.

(** X21 on the face of scenario A with the three flags set: eleven
    painting calls, the box, five points, the score label and the width
    label. *)
Lemma draw_face_paints_witness :
  face_cmds detected_face true true true
  = [CvRectangle (10, 10)%Z (50, 60)%Z GREEN 1;
     CvCircle (20, 25)%Z 1 (0, 0, 255)%Z 2;
     CvCircle (40, 25)%Z 1 (0, 255, 255)%Z 2;
     CvCircle (30, 35)%Z 1 (255, 0, 255)%Z 2;
     CvCircle (22, 45)%Z 1 (0, 255, 0)%Z 2;
     CvCircle (38, 45)%Z 1 (255, 0, 0)%Z 2;
     CvRectangleRec (10, -11, 41, 21)%Z GREEN (-1) 16;
     CvPutText "0.950" (13, 5)%Z 0 0.5 GREEN 3 16;
     CvPutText "0.950" (13, 5)%Z 0 0.5 BLACK 1 16;
     CvPutText "w:40" (13, 55)%Z 0 0.5 BLACK 3 16;
     CvPutText "w:40" (13, 55)%Z 0 0.5 GREEN 1 16] /\
  draw_face detected_face true true true (Some good_image, w0)
  = (Ok tt,
     (Some (mkImage [1; 1; 3]%nat
              [Byte.x10; Byte.x20; Byte.x30;
               Byte.x01; Byte.x03; Byte.x03; Byte.x03; Byte.x03; Byte.x03;
               Byte.x02; Byte.x04; Byte.x04; Byte.x04; Byte.x04]),
      w0)).
Proof.
  split; [vm_compute; reflexivity|].
  rewrite (@draw_face_paints ext painter detected_face true true true
             (Some good_image, w0) eq_refl).
  vm_compute. reflexivity.
Defined.

(** X22 on an analyzed crop, which has no box. *)
Lemma draw_face_needs_drawable_witness :
  is_ok (fst (draw_face crop_face false false false (Some good_image, w0))) = false.
Proof.
  apply (@draw_face_needs_drawable ext painter crop_face false false false
           (Some good_image, w0)).
  reflexivity.
Defined.

(** X23 on bytes that decode to no image: the sample model is called
    and refuses it; a model that finds no face lets [draw] reach
    [image.shape]. *)
Lemma draw_propagates_witness :
  draw "retinaface_r50_v1" (FromMultipart [Byte.x00]) 0.6%float true true true 0%Z w0
  = (Raise (RuntimeError "cannot process image"), mkSWorld 100%float [] [] 1) /\
  @draw SampleNoFaces.ext painter "retinaface_r50_v1" (FromMultipart [Byte.x00])
        0.6%float true true true 0%Z w0
  = (Raise (AttributeError "'NoneType' object has no attribute 'shape'"),
     mkSWorld 100%float [] [] 1).
Proof.
  split.
  - destruct (@draw_propagates ext painter "retinaface_r50_v1"
                (FromMultipart [Byte.x00]) 0.6%float true true true 0%Z w0)
      as (_ & _ & _ & Hnone & _ & Hmodel & _).
    apply (Hmodel None w0 _ _ (Hnone [Byte.x00] eq_refl eq_refl)). reflexivity.
  - destruct (@draw_propagates SampleNoFaces.ext painter "retinaface_r50_v1"
                (FromMultipart [Byte.x00]) 0.6%float true true true 0%Z w0)
      as (_ & _ & _ & Hnone & _ & _ & Hshape).
    apply (Hshape w0 _ (Hnone [Byte.x00] eq_refl eq_refl)). reflexivity.
Defined.

(** [draw] on a request without images, on bytes that cannot be decoded,
    and on bytes that decode to no image, which the sample model
    refuses. *)
Example draw_propagates_sample :
  draw "retinaface_r50_v1" (FromRequest (mkImagesRequest None None)) 0.6%float
       true true true 0%Z w0
  = (Raise (IndexError "index out of range"), w0) /\
  draw "retinaface_r50_v1" (FromMultipart []) 0.6%float true true true 0%Z w0
  = (Raise (Cv2Error "imdecode: empty buffer"), w0) /\
  draw "retinaface_r50_v1" (FromMultipart [Byte.x00]) 0.6%float true true true 0%Z w0
  = (Raise (RuntimeError "cannot process image"), mkSWorld 100%float [] [] 1).
Proof. repeat split; vm_compute; reflexivity. Qed.

(** X24 on a request of one image in which the sample model finds the
    face of scenario A: the eleven calls of the face and the two of the
    summary line. *)
Lemma draw_paints_witness :
  draw "retinaface_r50_v1" (FromRequest (mkImagesRequest None (Some ["a"])))
       0.6%float true true true 0%Z w0
  = (Ok [Byte.x10; Byte.x20; Byte.x30;
         Byte.x01; Byte.x03; Byte.x03; Byte.x03; Byte.x03; Byte.x03;
         Byte.x02; Byte.x04; Byte.x04; Byte.x04; Byte.x04;
         Byte.x04; Byte.x04],
     mkSWorld 100%float [] [] 1).
Proof.
  etransitivity.
  - eapply (@draw_paints ext painter "retinaface_r50_v1"
              (FromRequest (mkImagesRequest None (Some ["a"])))
              0.6%float true true true 0%Z w0 w0 (mkSWorld 100%float [] [] 1)
              (Some good_image) [detected_face]).
    + reflexivity.
    + reflexivity.
    + reflexivity.
    + vm_compute. reflexivity.
    + reflexivity.
  - vm_compute. reflexivity.
Defined.
